(** * WebPagesText: the sitemap response-time tester ([main.py])

  A shallow embedding of [SitemapTester] and the properties of its
  pipeline: sitemap parsing, the single timed probe, the thread-pool
  loop of [run_test] and the report of [generate_report].

  Conventions of the embedding.
  - Python [float]s (clock readings, latencies, percentages) are exact
    rationals [Q]; the arithmetic of the source is kept, its rounding is
    not modelled.
  - A Python [str] that may be [None] (the [text] of an XML element) is
    an [option string].
  - Exceptions are values of [Exc]; code that may raise lives in a small
    state-and-exception monad [Py] whose state holds what the program can
    observe or change: the console, [self.results], the requests issued,
    the time slept and the files written.
  - What the outside world decides (answers of the network, clock
    readings, the order in which futures complete) is an explicit [Env].
  - A call handed to the thread pool is run by a worker before the pool
    is left; [as_completed] yields every future once, in an order chosen
    by the world.  Interrupts ([KeyboardInterrupt]) are not modelled. *)

From Stdlib Require Import List String Ascii Bool Arith ZArith QArith Qminmax.
From Stdlib Require Import Permutation Sorted Lia DecimalString.
From Stdlib Require Import PrimInt63 PrimFloat.
Import ListNotations.

Local Open Scope string_scope.

(** ** Python values and formatting *)

Module Py_str.

(** A [str] or [None]. *)
Definition Text := option string.

(** [str(x)] / [f"{x}"] for a [Text]. *)
Definition pystr (t : Text) : string :=
  match t with
  | Some s => s
  | None => "None"
  end.

(** The line feed ["\n"]. *)
Definition nl : string := String (ascii_of_nat 10) EmptyString.

(** [s * n] for a string [s]. *)
Fixpoint str_mul (s : string) (n : nat) : string :=
  match n with
  | O => ""
  | S n' => s ++ str_mul s n'
  end.

(** [f"{n}"] for an [int]. *)
Definition str_int (n : Z) : string := NilZero.string_of_int (Z.to_int n).

(** [f"{n:2d}"]: right-aligned in a field of width 2. *)
Definition fmt_2d (n : Z) : string :=
  let s := str_int n in
  if (String.length s <? 2)%nat then " " ++ s else s.

(** A printed or written line.  Text is kept as text; a float formatted
    with [:.0f] or [:.1f] is kept as the number that is formatted. *)
Inductive piece : Type :=
| Txt (s : string)
| Fix0 (x : Q)
| Fix1 (x : Q).

Definition line := list piece.

End Py_str.
Import Py_str.

(** ** [xml.etree.ElementTree] *)

Module ET.

(** An element: its qualified tag [{namespace}local], its text and its
    sub-elements in document order. *)
#[warnings="-register-all"]
Inductive Element : Type :=
  Elem { tag : string; text : Text; children : list Element }.

(** A path [prefix:local] resolved through the namespace map. *)
Definition qname (uri local : string) : string := "{" ++ uri ++ "}" ++ local.

(** [e.findall(path)]: the direct children with that tag, in order. *)
Definition findall (e : Element) (qtag : string) : list Element :=
  filter (fun c => String.eqb (tag c) qtag) (children e).

(** [e.find(path)]: the first such child, or [None]. *)
Definition find (e : Element) (qtag : string) : option Element :=
  match findall e qtag with
  | [] => None
  | c :: _ => Some c
  end.

(** [e.iter()]: the element and all its descendants, in document order. *)
Fixpoint iter (e : Element) : list Element :=
  e :: flat_map iter (children e).

End ET.
Import ET.

(** ** Exceptions *)

Module Exn.

(** The exception classes the program can meet.  Every one of them derives
    from [Exception], which is what the [except] clauses of the program
    catch; [ConnectTimeout] and [ReadTimeout] derive from
    [requests.exceptions.Timeout]. *)
Inductive ExcClass : Type :=
| Timeout
| ConnectTimeout
| ReadTimeout
| ConnectionError
| MissingSchema
| HTTPError
| ParseError
| ValueError
| TypeError
| KeyError
| StatisticsError
| OtherException.

(** An exception: its class and [str(e)]. *)
Record Exc : Type := mkExc { exc_class : ExcClass; str : string }.

(** [isinstance(e, requests.exceptions.Timeout)]. *)
Definition is_Timeout (e : Exc) : bool :=
  match exc_class e with
  | Timeout | ConnectTimeout | ReadTimeout => true
  | _ => false
  end.

(** The outcome of a call: a value, or an exception raised. *)
Inductive Res (A : Type) : Type :=
| Ok (a : A)
| Raise (e : Exc).

Arguments Ok {A} a.
Arguments Raise {A} e.

Definition res_bind {A B : Type} (r : Res A) (k : A -> Res B) : Res B :=
  match r with
  | Ok a => k a
  | Raise e => Raise e
  end.

End Exn.
Import Exn.

(** ** [requests] *)

Module Requests.

(** The body of a response as [ET.fromstring] sees it: bytes that are not
    well-formed XML (with the parser's message), or a document. *)
Inductive Body : Type :=
| NotXML (msg : string)
| XML (root : Element).

Record Response : Type := mkResponse {
  status_code : Z;
  reason : string;
  resp_url : string;
  content : Body
}.

(** [response.raise_for_status()]: [HTTPError] for a 4xx or a 5xx status,
    nothing for any other status. *)
Definition raise_for_status (r : Response) : Res unit :=
  let s := status_code r in
  if ((400 <=? s) && (s <? 500))%Z then
    Raise (mkExc HTTPError
             (str_int s ++ " Client Error: " ++ reason r ++ " for url: " ++ resp_url r))
  else if ((500 <=? s) && (s <? 600))%Z then
    Raise (mkExc HTTPError
             (str_int s ++ " Server Error: " ++ reason r ++ " for url: " ++ resp_url r))
  else Ok tt.

(** [ET.fromstring(response.content)]. *)
Definition fromstring (b : Body) : Res Element :=
  match b with
  | XML root => Ok root
  | NotXML msg => Raise (mkExc ParseError msg)
  end.

(** One timed request as the probe lives it: the reading of [time.time()]
    before the call, what [session.get] does, the reading after it. *)
Record Exchange : Type := mkExchange {
  clock_before : Q;
  answer : Res Response;
  clock_after : Q
}.

End Requests.
Import Requests.

(** ** The interpreter state and the [Py] monad *)

(** One entry of [self.results]: the dict built by [test_single_url]. *)
Record Result : Type := mkResult {
  url : Text;
  response_time : option Q;
  status_code : option Z;
  success : bool;
  error : option string
}.

Record File : Type := mkFile { filename : string; written : list line }.

Record State : Type := mkState {
  console : list line;        (* lines printed, oldest first *)
  results : list Result;      (* self.results *)
  requested : list Text;      (* page URLs handed to session.get *)
  slept : Q;                  (* seconds spent in time.sleep *)
  files : list File           (* files opened for writing, newest first *)
}.

Definition Py (A : Type) : Type := State -> State * Res A.

Definition ret {A : Type} (a : A) : Py A := fun s => (s, Ok a).

Definition bind {A B : Type} (m : Py A) (k : A -> Py B) : Py B :=
  fun s =>
    match m s with
    | (s', Ok a) => k a s'
    | (s', Raise e) => (s', Raise e)
    end.

Definition raise {A : Type} (e : Exc) : Py A := fun s => (s, Raise e).

(** A pure call that may raise. *)
Definition lift {A : Type} (r : Res A) : Py A := fun s => (s, r).

(** [try: m  except Exception as e: h e]. *)
Definition try_except {A : Type} (m : Py A) (h : Exc -> Py A) : Py A :=
  fun s =>
    match m s with
    | (s', Ok a) => (s', Ok a)
    | (s', Raise e) => h e s'
    end.

Declare Scope py_scope.
Delimit Scope py_scope with py.
Notation "x <- m ;; k" := (bind m (fun x => k))
  (at level 61, m at next level, right associativity) : py_scope.
Notation "m ;; k" := (bind m (fun _ => k))
  (at level 61, right associativity) : py_scope.

Definition print (l : line) : Py unit :=
  fun s => (mkState (console s ++ [l]) (results s) (requested s) (slept s) (files s), Ok tt).

(** [print(s)] for a plain string. *)
Definition print_str (t : string) : Py unit := print [Txt t].

Definition results_append (r : Result) : Py unit :=
  fun s => (mkState (console s) (results s ++ [r]) (requested s) (slept s) (files s), Ok tt).

Definition get_results : Py (list Result) := fun s => (s, Ok (results s)).

Definition note_request (u : Text) : Py unit :=
  fun s => (mkState (console s) (results s) (requested s ++ [u]) (slept s) (files s), Ok tt).

(** [time.sleep(d)]. *)
Definition sleep (d : Q) : Py unit :=
  fun s => (mkState (console s) (results s) (requested s) (slept s + d) (files s), Ok tt).

(** [open(name, 'w')]: the file is created (empty) when it is opened. *)
Definition open_w (name : string) : Py unit :=
  fun s => (mkState (console s) (results s) (requested s) (slept s)
              (mkFile name [] :: files s), Ok tt).

(** [f.write(l)] on the file opened last. *)
Definition write (l : line) : Py unit :=
  fun s =>
    match files s with
    | [] => (s, Ok tt)
    | f :: older =>
        (mkState (console s) (results s) (requested s) (slept s)
           (mkFile (filename f) (written f ++ [l]) :: older), Ok tt)
    end.

(** [for x in xs: body x]. *)
Fixpoint for_each {A : Type} (xs : list A) (body : A -> Py unit) : Py unit :=
  match xs with
  | [] => ret tt
  | x :: rest => bind (body x) (fun _ => for_each rest body)
  end.

(** ** Floats and the [statistics] module *)

Module Stats.

Local Open Scope Q_scope.

(** [x < y] and [x <= y] on floats. *)
Definition ltb (x y : Q) : bool := negb (Qle_bool y x).
Definition leb (x y : Q) : bool := Qle_bool x y.

(** [float(n)] for a length or a count. *)
Definition of_nat (n : nat) : Q := inject_Z (Z.of_nat n).

(** A value used as a number: [None] raises [TypeError]. *)
Definition as_float (o : option Q) : Res Q :=
  match o with
  | Some x => Ok x
  | None => Raise (mkExc TypeError "NoneType is not a number")
  end.

Fixpoint floats (l : list (option Q)) : Res (list Q) :=
  match l with
  | [] => Ok []
  | o :: rest =>
      res_bind (as_float o) (fun x =>
      res_bind (floats rest) (fun xs => Ok (x :: xs)))
  end.

(** [min(l)]: the first smallest element; [ValueError] on an empty list. *)
Definition py_min (l : list Q) : Res Q :=
  match l with
  | [] => Raise (mkExc ValueError "min() arg is an empty sequence")
  | x :: rest => Ok (fold_left (fun m y => if ltb y m then y else m) rest x)
  end.

(** [max(l)]: the first largest element; [ValueError] on an empty list. *)
Definition py_max (l : list Q) : Res Q :=
  match l with
  | [] => Raise (mkExc ValueError "max() arg is an empty sequence")
  | x :: rest => Ok (fold_left (fun m y => if ltb m y then y else m) rest x)
  end.

(** [sum(l)]. *)
Definition py_sum (l : list Q) : Q := fold_left Qplus l 0.

(** [statistics.mean(l)]. *)
Definition mean (l : list Q) : Res Q :=
  match l with
  | [] => Raise (mkExc StatisticsError "mean requires at least one data point")
  | _ => Ok (py_sum l / of_nat (List.length l))
  end.

(** [sorted(l)]: a stable sort into non-decreasing order. *)
Fixpoint insert (x : Q) (l : list Q) : list Q :=
  match l with
  | [] => [x]
  | y :: rest => if leb x y then x :: y :: rest else y :: insert x rest
  end.

Fixpoint sorted (l : list Q) : list Q :=
  match l with
  | [] => []
  | x :: rest => insert x (sorted rest)
  end.

(** [statistics.median(l)]: the middle value of the sorted data, or the
    average of the two middle values when there is an even number. *)
Definition median (l : list Q) : Res Q :=
  let data := sorted l in
  let n := List.length data in
  if (n =? 0)%nat then Raise (mkExc StatisticsError "no median for empty data")
  else if (n mod 2 =? 1)%nat then Ok (nth (n / 2) data 0)
  else
    let i := (n / 2)%nat in
    Ok ((nth (i - 1) data 0 + nth i data 0) / 2).

(** The three classes of the response-time distribution: the counts
    [fast], [medium] and [slow] of [generate_report]. *)
Definition in_fast (t : Q) : bool := ltb t 500.
Definition in_medium (t : Q) : bool := leb 500 t && ltb t 2000.
Definition in_slow (t : Q) : bool := leb 2000 t.

Definition fast (ts : list Q) : nat := List.length (filter in_fast ts).
Definition medium (ts : list Q) : nat := List.length (filter in_medium ts).
Definition slow (ts : list Q) : nat := List.length (filter in_slow ts).

(** [k / n * 100], the share printed next to a count, as an exact value.
    The program computes it on floats: see [percent_binary64] below, which
    agrees with it where the quotient is a float (40 and 20 for two and one
    of five) and not where it has to be rounded (one of three). *)
Definition percent (k n : nat) : Q := of_nat k / of_nat n * 100.

(** The same share as the program computes it, in binary64: the quotient of
    the two counts rounded to the nearest float, then its product with
    100.0 rounded again.  (The counts are far below 2^53, so that they are
    floats themselves.) *)
Fixpoint int_of_nat (n : nat) : PrimInt63.int :=
  match n with
  | O => 0%uint63
  | S k => PrimInt63.add (int_of_nat k) 1%uint63
  end.

Definition float_of_nat (n : nat) : float := PrimFloat.of_uint63 (int_of_nat n).

Definition percent_binary64 (k n : nat) : float :=
  PrimFloat.mul (PrimFloat.div (float_of_nat k) (float_of_nat n)) 100%float.

End Stats.
Import Stats.

(** ** [SitemapTester] *)

(** The fields set by [__init__] that never change. *)
Record SitemapTester : Type := mkTester {
  sitemap_url : string;
  max_workers : Z;
  timeout : Q
}.

(** What the outside world decides during one run. *)
Record Env : Type := mkEnv {
  sitemap_answer : Res Response;          (* session.get(self.sitemap_url) *)
  page_exchange : nat -> Text -> Exchange; (* the i-th submitted probe, on its URL *)
  completes_next : nat -> nat;            (* which pending future finishes at each step *)
  test_clock_start : Q;                   (* time.time() before the pool *)
  test_clock_end : Q;                     (* time.time() after the pool *)
  stamp_name : string;                    (* now().strftime("%Y%m%d_%H%M%S") *)
  stamp_text : string                     (* now().strftime("%Y-%m-%d %H:%M:%S") *)
}.

Definition len {A : Type} (l : list A) : Z := Z.of_nat (List.length l).

(** [not l]: a list is false when it is empty. *)
Definition is_empty {A : Type} (l : list A) : bool :=
  match l with
  | [] => true
  | _ => false
  end.

Definition sitemap_ns : string := "http://www.sitemaps.org/schemas/sitemap/0.9".
Definition url_tag : string := qname sitemap_ns "url".
Definition loc_tag : string := qname sitemap_ns "loc".

(** The loop of [parse_sitemap] over [root.findall('ns:url')]. *)
Definition collect_locs (root : Element) : list Text :=
  fold_left
    (fun urls u =>
       match find u loc_tag with
       | Some loc => (urls ++ [text loc])%list
       | None => urls
       end)
    (findall root url_tag) [].

Definition parse_sitemap (self : SitemapTester) (env : Env) : Py (list Text) :=
  (try_except
     (print_str ("正在获取网站地图: " ++ sitemap_url self) ;;
      response <- lift (sitemap_answer env) ;;
      lift (raise_for_status response) ;;
      root <- lift (fromstring (content response)) ;;
      let urls := collect_locs root in
      print_str ("成功解析 " ++ str_int (len urls) ++ " 个URL") ;;
      ret urls)
     (fun e =>
        print_str ("解析网站地图失败: " ++ str e) ;;
        ret []))%py.

Definition test_single_url (x : Exchange) (u : Text) : Res Result :=
  match
    (let start_time := clock_before x in
     res_bind (answer x) (fun response =>
     let end_time := clock_after x in
     let response_time := ((end_time - start_time) * 1000)%Q in
     Ok (mkResult u (Some response_time) (Some (Requests.status_code response)) true None)))
  with
  | Ok result => Ok result
  | Raise e =>
      if is_Timeout e
      then Ok (mkResult u None None false (Some "请求超时"))
      else Ok (mkResult u None None false (Some (str e)))
  end.

(** *** The thread pool of [run_test] *)

(** A future: its identity (the rank of its submission) and what
    [future.result()] gives once the call has finished. *)
Record Future : Type := mkFuture { fid : nat; outcome : Res Result }.

(** The dict comprehension [{executor.submit(self.test_single_url, url): url
    for url in urls}]: one call per element of [urls], queued in that order.
    Every queued call is run by a worker before the [with] block is left. *)
Fixpoint submit_all (env : Env) (i : nat) (urls : list Text) : Py (list (Future * Text)) :=
  match urls with
  | [] => ret []
  | u :: rest =>
      (note_request u ;;
       let future := mkFuture i (test_single_url (page_exchange env i u) u) in
       d <- submit_all env (S i) rest ;;
       ret ((future, u) :: d))%py
  end.

(** [future_to_url[future]]. *)
Fixpoint dict_get (d : list (Future * Text)) (f : Future) : Res Text :=
  match d with
  | [] => Raise (mkExc KeyError "future")
  | (g, u) :: rest => if (fid g =? fid f)%nat then Ok u else dict_get rest f
  end.

Fixpoint remove_nth {A : Type} (k : nat) (l : list A) : list A :=
  match l, k with
  | [], _ => []
  | _ :: rest, O => rest
  | x :: rest, S k' => x :: remove_nth k' rest
  end.

(** [concurrent.futures.as_completed(fs)]: every future of [fs] once, in the
    order in which they finish.  That order belongs to the outside world:
    at step [step], [choose step] picks one of the futures still pending. *)
Fixpoint as_completed (choose : nat -> nat) (step n : nat) (pending : list Future)
  : list Future :=
  match n with
  | O => []
  | S n' =>
      match pending with
      | [] => []
      | f0 :: _ =>
          let k := (choose step mod List.length pending)%nat in
          nth k pending f0 :: as_completed choose (S step) n' (remove_nth k pending)
      end
  end.

(** [enumerate(l, i)]. *)
Fixpoint enumerate {A : Type} (i : Z) (l : list A) : list (Z * A) :=
  match l with
  | [] => []
  | x :: rest => (i, x) :: enumerate (i + 1)%Z rest
  end.

(** The body of the [for i, future in enumerate(as_completed(...), 1)] loop. *)
Definition on_completed (self : SitemapTester) (n_urls : Z)
    (future_to_url : list (Future * Text)) (i : Z) (future : Future) : Py unit :=
  (u <- lift (dict_get future_to_url future) ;;
   try_except
     (result <- lift (outcome future) ;;
      results_append result ;;
      (if success result
       then
         t <- lift (as_float (response_time result)) ;;
         print [Txt (fmt_2d i ++ "/" ++ str_int n_urls ++ " ✓ " ++ pystr u ++ " - ");
                Fix0 t; Txt "ms"]
       else
         print_str (fmt_2d i ++ "/" ++ str_int n_urls ++ " ✗ " ++ pystr u ++ " - "
                    ++ pystr (error result))) ;;
      if (max_workers self =? 1)%Z then sleep 1 else ret tt)
     (fun e =>
        print_str (fmt_2d i ++ "/" ++ str_int n_urls ++ " ✗ " ++ pystr u
                   ++ " - 测试异常: " ++ str e)))%py.

(** The [with ThreadPoolExecutor(max_workers=...)] block.  The constructor
    refuses a pool without workers. *)
Definition run_test_pool (self : SitemapTester) (env : Env) (urls : list Text) : Py unit :=
  ((if (max_workers self <=? 0)%Z
    then raise (mkExc ValueError "max_workers must be greater than 0")
    else ret tt) ;;
   future_to_url <- submit_all env 0 urls ;;
   let fs := map fst future_to_url in
   for_each (enumerate 1 (as_completed (completes_next env) 0 (List.length fs) fs))
     (fun '(i, future) => on_completed self (len urls) future_to_url i future))%py.

(** *** The report *)

(** The statistics block of [generate_report], entered when
    [successful_tests] is not empty. *)
Definition report_statistics (successful_tests : list Result) : Py unit :=
  (let response_times := map response_time successful_tests in
   print_str (nl ++ "响应时间统计 (毫秒):") ;;
   ts <- lift (floats response_times) ;;
   t_min <- lift (py_min ts) ;;
   print [Txt "  最快: "; Fix0 t_min; Txt "ms"] ;;
   t_max <- lift (py_max ts) ;;
   print [Txt "  最慢: "; Fix0 t_max; Txt "ms"] ;;
   t_mean <- lift (mean ts) ;;
   print [Txt "  平均: "; Fix0 t_mean; Txt "ms"] ;;
   t_median <- lift (median ts) ;;
   print [Txt "  中位数: "; Fix0 t_median; Txt "ms"] ;;
   let n := List.length successful_tests in
   print_str (nl ++ "响应时间分布:") ;;
   print [Txt ("  < 500ms: " ++ str_int (Z.of_nat (fast ts)) ++ " 个页面 (");
          Fix1 (percent (fast ts) n); Txt "%)"] ;;
   print [Txt ("  500ms-2s: " ++ str_int (Z.of_nat (medium ts)) ++ " 个页面 (");
          Fix1 (percent (medium ts) n); Txt "%)"] ;;
   print [Txt ("  > 2s: " ++ str_int (Z.of_nat (slow ts)) ++ " 个页面 (");
          Fix1 (percent (slow ts) n); Txt "%)"])%py.

Definition generate_report (self : SitemapTester) (env : Env) : Py unit :=
  (rs <- get_results ;;
   if is_empty rs then print_str "没有测试结果可报告"
   else
     let successful_tests := filter success rs in
     let failed_tests := filter (fun r => negb (success r)) rs in
     print_str (nl ++ str_mul "=" 60) ;;
     print_str "测试结果摘要" ;;
     print_str (str_mul "=" 60) ;;
     print_str ("总页面数: " ++ str_int (len rs)) ;;
     print_str ("成功测试: " ++ str_int (len successful_tests)) ;;
     print_str ("失败测试: " ++ str_int (len failed_tests)) ;;
     (if is_empty successful_tests then ret tt
      else report_statistics successful_tests) ;;
     (if is_empty failed_tests then ret tt
      else
        print_str (nl ++ "失败页面详情:") ;;
        for_each failed_tests
          (fun test => print_str ("  " ++ pystr (url test) ++ " - " ++ pystr (error test)))) ;;
     let name := "sitemap_test_results_" ++ stamp_name env ++ ".txt" in
     open_w name ;;
     write [Txt ("网站地图响应时间测试报告" ++ nl)] ;;
     write [Txt ("测试时间: " ++ stamp_text env ++ nl)] ;;
     write [Txt ("网站地图: " ++ sitemap_url self ++ nl)] ;;
     write [Txt ("测试页面数: " ++ str_int (len rs) ++ nl ++ nl)] ;;
     for_each rs
       (fun result =>
          if success result
          then
            t <- lift (as_float (response_time result)) ;;
            write [Txt ("✓ " ++ pystr (url result) ++ " - "); Fix0 t; Txt ("ms" ++ nl)]
          else
            write [Txt ("✗ " ++ pystr (url result) ++ " - " ++ pystr (error result) ++ nl)]) ;;
     print_str (nl ++ "详细结果已保存到: " ++ name))%py.

Definition run_test (self : SitemapTester) (env : Env) : Py unit :=
  (print_str "开始测试网站地图中的页面..." ;;
   print_str (str_mul "=" 60) ;;
   urls <- parse_sitemap self env ;;
   if is_empty urls then print_str "没有找到可测试的URL"
   else
     print_str (nl ++ "开始测试 " ++ str_int (len urls) ++ " 个页面 (并发数: "
                ++ str_int (max_workers self) ++ ")") ;;
     print_str (str_mul "-" 60) ;;
     let start_test_time := test_clock_start env in
     run_test_pool self env urls ;;
     let total_test_time := (test_clock_end env - start_test_time)%Q in
     print [Txt (nl ++ "测试完成! 总耗时: "); Fix1 total_test_time; Txt "秒"] ;;
     generate_report self env)%py.

(** [main]: the configured tester, and the last-resort handler. *)
Definition main_tester : SitemapTester :=
  mkTester "https://xiaozou123.cn/sitemap-post-type-post.xml" 1 15.

Definition main (env : Env) : Py unit :=
  try_except (run_test main_tester env)
    (fun e => print_str ("测试过程中发生错误: " ++ str e)).

(** The state in which [run_test] starts: nothing printed, [self.results]
    empty, nothing requested, no file. *)
Definition initial : State := mkState [] [] [] 0 [].

(** ** Real time in a pool with one worker

    With [max_workers = 1] the timing of a run is determined by how long
    each request takes.  All calls are queued by the dict comprehension of
    [run_test] before the loop over [as_completed] starts; the only worker
    of the pool takes them from the queue in order, each one as soon as the
    call before it has returned.  The main thread waits for each future in
    turn and, having printed its line, sleeps one second. *)

Module Pacing.

Local Open Scope Q_scope.

Record Span : Type := mkSpan {
  submitted : Q;   (* executor.submit returns *)
  began : Q;       (* the worker enters test_single_url *)
  ended : Q        (* the worker leaves it: the future is done *)
}.

(** The worker thread, free at [now], with the calls submitted at [t0]. *)
Fixpoint worker (t0 now : Q) (durations : list Q) : list Span :=
  match durations with
  | [] => []
  | d :: rest => mkSpan t0 now (now + d) :: worker t0 (now + d) rest
  end.

(** The main thread in the loop over [as_completed]: the time at which the
    loop is left. *)
Fixpoint collect (self : SitemapTester) (now : Q) (spans : list Span) : Q :=
  match spans with
  | [] => now
  | f :: rest =>
      let got := Qmax now (ended f) in
      collect self (if (max_workers self =? 1)%Z then got + 1 else got) rest
  end.

(** [total_test_time] on a true clock. *)
Definition run_time (self : SitemapTester) (t0 : Q) (durations : list Q) : Q :=
  collect self t0 (worker t0 t0 durations) - t0.

(** Between the end of each request and the beginning of the next. *)
Fixpoint gaps (spans : list Span) : list Q :=
  match spans with
  | [] => []
  | a :: rest =>
      match rest with
      | [] => []
      | b :: _ => (began b - ended a) :: gaps rest
      end
  end.

End Pacing.
Import Pacing.

(** ** Reference definitions

    What the claims compare the program with. *)

(** *** The sitemap *)

Definition is_url (e : Element) : bool := String.eqb (tag e) url_tag.

(** Every [<url>] element of the document, in document order. *)
Definition url_elements (root : Element) : list Element :=
  filter is_url (iter root).

Definition loc_of (u : Element) : list Text :=
  match find u loc_tag with
  | Some loc => [text loc]
  | None => []
  end.

(** The reading of a sitemap as the specification words it: the [<loc>]
    text of every [<url>] element of the document, in document order, an
    entry without [<loc>] giving nothing. *)
Definition spec_urls (root : Element) : list Text :=
  flat_map loc_of (url_elements root).

(** A sitemap document of the 0.9 schema: the root is [<urlset>] and
    [<url>] entries occur only as its children. *)
Definition sitemap_document (root : Element) : bool :=
  String.eqb (tag root) (qname sitemap_ns "urlset")
  && forallb (fun c => forallb (fun d => negb (is_url d)) (flat_map iter (children c)))
       (children root).

Definition has_loc (u : Element) : bool :=
  match find u loc_tag with
  | Some _ => true
  | None => false
  end.

(** *** Results, states and the lines of the report *)

(** A result as [test_single_url] builds them: a success carries its
    response time. *)
Definition well_formed (r : Result) : bool :=
  match success r, response_time r with
  | true, None => false
  | _, _ => true
  end.

Definition latency (r : Result) : Q :=
  match response_time r with
  | Some t => t
  | None => 0
  end.

Definition add_console (s : State) (ls : list line) : State :=
  mkState (console s ++ ls) (results s) (requested s) (slept s) (files s).

Definition set_files (s : State) (fs : list File) : State :=
  mkState (console s) (results s) (requested s) (slept s) fs.

(** The lines of the statistics block for the response times [ts]. *)
Definition statistics_lines (ts : list Q) (t_min t_max t_mean t_median : Q) : list line :=
  [ [Txt (nl ++ "响应时间统计 (毫秒):")];
    [Txt "  最快: "; Fix0 t_min; Txt "ms"];
    [Txt "  最慢: "; Fix0 t_max; Txt "ms"];
    [Txt "  平均: "; Fix0 t_mean; Txt "ms"];
    [Txt "  中位数: "; Fix0 t_median; Txt "ms"];
    [Txt (nl ++ "响应时间分布:")];
    [Txt ("  < 500ms: " ++ str_int (Z.of_nat (fast ts)) ++ " 个页面 (");
     Fix1 (percent (fast ts) (List.length ts)); Txt "%)"];
    [Txt ("  500ms-2s: " ++ str_int (Z.of_nat (medium ts)) ++ " 个页面 (");
     Fix1 (percent (medium ts) (List.length ts)); Txt "%)"];
    [Txt ("  > 2s: " ++ str_int (Z.of_nat (slow ts)) ++ " 个页面 (");
     Fix1 (percent (slow ts) (List.length ts)); Txt "%)"] ].

(** The response times of the successful results. *)
Definition successful_latencies (rs : list Result) : list Q :=
  map latency (filter success rs).

(** The state in which [self.results] holds [rs]. *)
Definition with_results (rs : list Result) : State := mkState [] rs [] 0 [].

(** Two lines that show the same text and the same numbers. *)
Definition same_piece (a b : piece) : bool :=
  match a, b with
  | Txt s, Txt t => String.eqb s t
  | Fix0 x, Fix0 y => Qeq_bool x y
  | Fix1 x, Fix1 y => Qeq_bool x y
  | _, _ => false
  end.

Fixpoint same_line (a b : line) : bool :=
  match a, b with
  | [], [] => true
  | x :: a', y :: b' => same_piece x y && same_line a' b'
  | _, _ => false
  end.

Fixpoint same_lines (a b : list line) : bool :=
  match a, b with
  | [], [] => true
  | x :: a', y :: b' => same_line x y && same_lines a' b'
  | _, _ => false
  end.

(** *** The pool *)

(** The calls of the pool, numbered from [i]. *)
Fixpoint numbered (i : nat) (urls : list Text) : list (nat * Text) :=
  match urls with
  | [] => []
  | u :: rest => (i, u) :: numbered (S i) rest
  end.

(** The value of a call that did not raise. *)
Definition value_of (r : Res Q) : Q :=
  match r with
  | Ok x => x
  | Raise _ => 0%Q
  end.

(** The result of the [i]-th call of the pool, on the URL [u]. *)
Definition probe (env : Env) (i : nat) (u : Text) : Result :=
  match test_single_url (page_exchange env i u) u with
  | Ok r => r
  | Raise _ => mkResult u None None false None
  end.

(** The futures of the pool for the URLs [urls], the first numbered [i]. *)
Definition futures_of (env : Env) (i : nat) (urls : list Text) : list (Future * Text) :=
  map (fun '(j, u) => (mkFuture j (test_single_url (page_exchange env j u) u), u))
    (numbered i urls).

Definition result_of (f : Future) : Result :=
  match outcome f with
  | Ok r => r
  | Raise _ => mkResult None None None false None
  end.

(** The progress line of the [i]-th completed future. *)
Definition progress_line (n_urls i : Z) (u : Text) (r : Result) : line :=
  if success r
  then [Txt (fmt_2d i ++ "/" ++ str_int n_urls ++ " ✓ " ++ pystr u ++ " - ");
        Fix0 (latency r); Txt "ms"]
  else [Txt (fmt_2d i ++ "/" ++ str_int n_urls ++ " ✗ " ++ pystr u ++ " - "
             ++ pystr (error r))].

(** The contents of the report. *)
Definition report_name (env : Env) : string :=
  "sitemap_test_results_" ++ stamp_name env ++ ".txt".

Definition file_line (r : Result) : line :=
  if success r
  then [Txt ("✓ " ++ pystr (url r) ++ " - "); Fix0 (latency r); Txt ("ms" ++ nl)]
  else [Txt ("✗ " ++ pystr (url r) ++ " - " ++ pystr (error r) ++ nl)].

Definition report_file (self : SitemapTester) (env : Env) (rs : list Result) : File :=
  mkFile (report_name env)
    ([ [Txt ("网站地图响应时间测试报告" ++ nl)];
       [Txt ("测试时间: " ++ stamp_text env ++ nl)];
       [Txt ("网站地图: " ++ sitemap_url self ++ nl)];
       [Txt ("测试页面数: " ++ str_int (len rs) ++ nl ++ nl)] ]
     ++ map file_line rs).

Definition summary_head (rs : list Result) : list line :=
  [ [Txt (nl ++ str_mul "=" 60)];
    [Txt "测试结果摘要"];
    [Txt (str_mul "=" 60)];
    [Txt ("总页面数: " ++ str_int (len rs))];
    [Txt ("成功测试: " ++ str_int (len (filter success rs)))];
    [Txt ("失败测试: " ++ str_int (len (filter (fun r => negb (success r)) rs)))] ].

Definition statistics_block (rs : list Result) : list line :=
  let ts := successful_latencies rs in
  if is_empty ts then []
  else
    statistics_lines ts (value_of (py_min ts)) (value_of (py_max ts))
      (value_of (mean ts)) (value_of (median ts)).

Definition failure_line (r : Result) : line :=
  [Txt ("  " ++ pystr (url r) ++ " - " ++ pystr (error r))].

Definition failure_block (rs : list Result) : list line :=
  let failed_tests := filter (fun r => negb (success r)) rs in
  if is_empty failed_tests then []
  else [Txt (nl ++ "失败页面详情:")] :: map failure_line failed_tests.

Definition report_console (env : Env) (rs : list Result) : list line :=
  summary_head rs ++ statistics_block rs ++ failure_block rs
  ++ [ [Txt (nl ++ "详细结果已保存到: " ++ report_name env)] ].

(** The URL the dict holds for a future ([None] when it holds none). *)
Definition url_of (d : list (Future * Text)) (f : Future) : Text :=
  match dict_get d f with
  | Ok u => u
  | Raise _ => None
  end.

(** The pause after a collected result. *)
Definition pause (self : SitemapTester) (t : Q) : Q :=
  if (max_workers self =? 1)%Z then (t + 1)%Q else t.

(** The state after one round of the loop over [as_completed], and after
    all of them. *)
Definition after_one (self : SitemapTester) (n_urls : Z) (d : list (Future * Text))
    (i : Z) (f : Future) (s : State) : State :=
  mkState (console s ++ [progress_line n_urls i (url_of d f) (result_of f)])
    (results s ++ [result_of f]) (requested s) (pause self (slept s)) (files s).

Fixpoint after_loop (self : SitemapTester) (n_urls : Z) (d : list (Future * Text))
    (items : list (Z * Future)) (s : State) : State :=
  match items with
  | [] => s
  | (i, f) :: rest => after_loop self n_urls d rest (after_one self n_urls d i f s)
  end.

Definition set_requested (s : State) (q : list Text) : State :=
  mkState (console s) (results s) q (slept s) (files s).

(** The exception that [parse_sitemap] catches, if any. *)
Definition sitemap_error (env : Env) : option Exc :=
  match sitemap_answer env with
  | Raise e => Some e
  | Ok response =>
      match raise_for_status response with
      | Raise e => Some e
      | Ok _ =>
          match fromstring (content response) with
          | Raise e => Some e
          | Ok _ => None
          end
      end
  end.

(** ** Worked examples *)

(** The five response times of the worked example. *)
Definition five_latencies : list Q := [100; 300; 700; 1500; 3000]%Q.

Definition five_successes : list Result :=
  map (fun t => mkResult (Some "http://example.org/") (Some t) (Some 200%Z) true None)
    five_latencies.

Definition example_page (u : string) : Element :=
  Elem url_tag None
    [Elem loc_tag (Some u) []; Elem (qname sitemap_ns "lastmod") (Some "2025-01-01") []].

(** Three entries, two of them for the same page. *)
Definition example_document : Element :=
  Elem (qname sitemap_ns "urlset") None
    [example_page "http://example.org/a"; example_page "http://example.org/b";
     example_page "http://example.org/a"].

Definition example_response (status : Z) (name : string) (doc : Element) : Response :=
  mkResponse status name "http://example.org/sitemap.xml" (XML doc).

Definition page_200 : Response :=
  mkResponse 200 "OK" "http://example.org/a" (NotXML "").

Definition page_503 : Response :=
  mkResponse 503 "Service Unavailable" "http://example.org/a" (NotXML "").

(** A world in which the sitemap is answered with [status] and every page
    with 200 after 250 ms, the futures completing last first. *)
Definition example_env (status : Z) (name : string) : Env :=
  mkEnv (Ok (example_response status name example_document))
    (fun _ _ => mkExchange 100 (Ok page_200) (100 + (1 # 4)))
    (fun _ => 2%nat) 0 4 "20250101_120000" "2025-01-01 12:00:00".

Definition example_tester : SitemapTester :=
  mkTester "http://example.org/sitemap.xml" 2 10.

(** A request during which the wall clock is set back by one second. *)
Definition clock_set_back : Exchange := mkExchange 10 (Ok page_200) 9.

Definition timed_out : Exchange :=
  mkExchange 10 (Raise (mkExc ReadTimeout "Read timed out. (read timeout=10)")) 20.

(** Three entries, the second without [<loc>]. *)
Definition document_with_a_gap : Element :=
  Elem (qname sitemap_ns "urlset") None
    [example_page "http://example.org/a";
     Elem url_tag None [Elem (qname sitemap_ns "lastmod") (Some "2025-01-01") []];
     example_page "http://example.org/c"].

(** A request that times out while the body of the response is read:
    [requests] raises it as a [ConnectionError], which is no [Timeout]. *)
Definition body_read_timed_out : Exchange :=
  mkExchange 10
    (Raise (mkExc ConnectionError
              "HTTPConnectionPool(host='example.org', port=80): Read timed out."))
    20.

(** One response time in each class of the distribution. *)
Definition one_per_class : list Q := [100; 1000; 3000]%Q.

(** Two successes around a page that timed out. *)
Definition mixed_results : list Result :=
  [ mkResult (Some "http://example.org/a") (Some 100%Q) (Some 200%Z) true None;
    mkResult (Some "http://example.org/b") None None false (Some "请求超时");
    mkResult (Some "http://example.org/c") (Some 300%Q) (Some 200%Z) true None ].

(** A valid sitemap without any entry. *)
Definition empty_document : Element := Elem (qname sitemap_ns "urlset") None [].

Definition empty_sitemap_env : Env :=
  mkEnv (Ok (example_response 200 "OK" empty_document))
    (fun _ _ => mkExchange 100 (Ok page_200) (100 + (1 # 4)))
    (fun _ => 0%nat) 0 4 "20250101_120000" "2025-01-01 12:00:00".

(** Two pages that each answer after a tenth of a second. *)
Definition two_quick_pages : list Q := [1 # 10; 1 # 10].

Definition sequential_tester : SitemapTester :=
  mkTester "http://example.org/sitemap.xml" 1 10.

(** A tester whose pool would have no worker. *)
Definition idle_tester : SitemapTester :=
  mkTester "http://example.org/sitemap.xml" 0 10.

(** An entry with two [<loc>] children. *)
Definition entry_with_two_locs : Element :=
  Elem url_tag None
    [Elem (qname sitemap_ns "lastmod") (Some "2025-01-01") [];
     Elem loc_tag (Some "http://example.org/first") [];
     Elem loc_tag (Some "http://example.org/second") []].

(** * Properties *)

(** ** The distribution of response times *)

Section Distribution.

Local Open Scope Q_scope.

Lemma slow_is_not_below_500 (t : Q) : Qle_bool 2000 t = true -> Qle_bool 500 t = true.
Proof.
  rewrite !Qle_bool_iff. intros H.
  apply Qle_trans with (y := 2000); [ | exact H ].
  unfold Qle; simpl; lia.
Qed.

(** Every response time belongs to one class and to no other. *)
Lemma one_class (t : Q) :
  (in_fast t = true /\ in_medium t = false /\ in_slow t = false)
  \/ (in_fast t = false /\ in_medium t = true /\ in_slow t = false)
  \/ (in_fast t = false /\ in_medium t = false /\ in_slow t = true).
Proof.
  unfold in_fast, in_medium, in_slow, ltb, leb.
  destruct (Qle_bool 2000 t) eqn:Hs.
  - rewrite (slow_is_not_below_500 t Hs). simpl. right; right. auto.
  - destruct (Qle_bool 500 t); simpl; auto.
Qed.

Lemma classes_count (ts : list Q) :
  (fast ts + medium ts + slow ts = List.length ts)%nat.
Proof.
  unfold fast, medium, slow.
  induction ts as [ | t ts IH ]; simpl; [ reflexivity | ].
  destruct (one_class t) as [ (-> & -> & ->) | [ (-> & -> & ->) | (-> & -> & ->) ] ];
    simpl; lia.
Qed.

(** On the five response times of the worked example the shares computed
    in binary64 are the exact ones. *)
Lemma five_latencies_percent_binary64 :
  percent_binary64 (fast five_latencies) 5 = 40%float
  /\ percent_binary64 (medium five_latencies) 5 = 40%float
  /\ percent_binary64 (slow five_latencies) 5 = 20%float
  /\ percent (fast five_latencies) 5 == 40
  /\ percent (medium five_latencies) 5 == 40
  /\ percent (slow five_latencies) 5 == 20.
Proof. repeat split. Qed.

(** With one response time of three in a class the share is rounded: it is
    below the exact third of 100. *)
Lemma one_third_percent_binary64 :
  PrimFloat.ltb (percent_binary64 1 3) (PrimFloat.div 100%float 3%float) = true
  /\ PrimFloat.eqb (PrimFloat.mul (percent_binary64 1 3) 3%float) 100%float = false.
Proof. repeat split. Qed.

End Distribution.

(** ** Minimum, maximum, median *)

Section Statistics.

Local Open Scope Q_scope.

Lemma leb_false_le (x y : Q) : leb x y = false -> y <= x.
Proof.
  unfold leb. intros H.
  destruct (Qlt_le_dec x y) as [Hlt | Hle]; [ | exact Hle ].
  apply Qlt_le_weak, Qle_bool_iff in Hlt. congruence.
Qed.

Lemma ltb_true_le (x y : Q) : ltb x y = true -> x <= y.
Proof.
  unfold ltb. intros H. apply leb_false_le. unfold leb.
  now destruct (Qle_bool y x).
Qed.

Lemma ltb_false_le (x y : Q) : ltb x y = false -> y <= x.
Proof.
  unfold ltb. intros H. apply Qle_bool_iff. now destruct (Qle_bool y x).
Qed.

Lemma insert_permutation (x : Q) (l : list Q) : Permutation (x :: l) (insert x l).
Proof.
  induction l as [ | y l IH ]; simpl; [ reflexivity | ].
  destruct (leb x y); [ reflexivity | ].
  rewrite perm_swap. now apply perm_skip.
Qed.

Lemma sorted_permutation (l : list Q) : Permutation l (sorted l).
Proof.
  induction l as [ | x l IH ]; simpl; [ constructor | ].
  rewrite <- insert_permutation. now apply perm_skip.
Qed.

Lemma sorted_length (l : list Q) : List.length (sorted l) = List.length l.
Proof. symmetry. apply Permutation_length, sorted_permutation. Qed.

Lemma insert_head (x a : Q) (l : list Q) :
  a <= x -> HdRel Qle a l -> HdRel Qle a (insert x l).
Proof.
  intros Hax Hal. destruct l as [ | y l ]; simpl.
  - now constructor.
  - destruct (leb x y); constructor; auto. now inversion Hal.
Qed.

Lemma insert_keeps_order (x : Q) (l : list Q) :
  Sorted Qle l -> Sorted Qle (insert x l).
Proof.
  induction 1 as [ | y l Hl IH Hy ]; simpl.
  - repeat constructor.
  - destruct (leb x y) eqn:E.
    + constructor; [ now constructor | ].
      constructor. now apply Qle_bool_iff.
    + constructor; [ exact IH | ].
      apply insert_head; [ now apply leb_false_le | exact Hy ].
Qed.

Lemma sorted_in_order (l : list Q) : Sorted Qle (sorted l).
Proof.
  induction l as [ | x l IH ]; simpl; [ constructor | now apply insert_keeps_order ].
Qed.

(** [median] on an even number of values: the mean of the two in the
    middle of the sorted data. *)
Lemma median_even (ts : list Q) (k : nat) :
  List.length ts = (2 * S k)%nat ->
  median ts = Ok ((nth k (sorted ts) 0 + nth (S k) (sorted ts) 0) / 2).
Proof.
  intros Hlen. unfold median. rewrite sorted_length, Hlen.
  replace (2 * S k =? 0)%nat with false by (symmetry; apply Nat.eqb_neq; lia).
  replace ((2 * S k) mod 2)%nat with O
    by (symmetry; rewrite Nat.mul_comm; apply Nat.Div0.mod_mul).
  replace ((2 * S k) / 2)%nat with (S k)
    by (symmetry; rewrite Nat.mul_comm; apply Nat.div_mul; lia).
  simpl Nat.eqb. cbv iota.
  replace (S k - 1)%nat with k by lia. reflexivity.
Qed.

(** [median] on an odd number of values: the one in the middle. *)
Lemma median_odd (ts : list Q) (k : nat) :
  List.length ts = (2 * k + 1)%nat ->
  median ts = Ok (nth k (sorted ts) 0).
Proof.
  intros Hlen. unfold median. rewrite sorted_length, Hlen.
  replace (2 * k + 1 =? 0)%nat with false by (symmetry; apply Nat.eqb_neq; lia).
  replace ((2 * k + 1) mod 2)%nat with 1%nat.
  2:{ symmetry. rewrite Nat.add_comm, Nat.mul_comm, Nat.Div0.mod_add. reflexivity. }
  replace ((2 * k + 1) / 2)%nat with k.
  2:{ symmetry. rewrite Nat.add_comm, Nat.mul_comm, Nat.div_add by lia. reflexivity. }
  reflexivity.
Qed.

Lemma min_fold_spec (rest : list Q) (x : Q) :
  let m := fold_left (fun m y => if ltb y m then y else m) rest x in
  In m (x :: rest) /\ m <= x /\ (forall t, In t rest -> m <= t).
Proof.
  revert x. induction rest as [ | y rest IH ]; intros x; simpl.
  - split; [ now left | split; [ apply Qle_refl | tauto ] ].
  - destruct (ltb y x) eqn:E.
    + destruct (IH y) as (Hin & Hy & Hall). split; [ | split ].
      * simpl in Hin |- *; tauto.
      * apply Qle_trans with (y := y); [ exact Hy | now apply ltb_true_le ].
      * intros t [ <- | Ht ]; [ exact Hy | now apply Hall ].
    + destruct (IH x) as (Hin & Hx & Hall). split; [ | split ].
      * simpl in Hin |- *; tauto.
      * exact Hx.
      * intros t [ <- | Ht ]; [ | now apply Hall ].
        apply Qle_trans with (y := x); [ exact Hx | now apply ltb_false_le ].
Qed.

(** [min] returns an element of the list that no element is below. *)
Lemma py_min_least (ts : list Q) (m : Q) :
  py_min ts = Ok m -> In m ts /\ (forall t, In t ts -> m <= t).
Proof.
  destruct ts as [ | x rest ]; simpl; [ discriminate | ].
  intros [= <-]. destruct (min_fold_spec rest x) as (Hin & Hx & Hall).
  split; [ exact Hin | ]. intros t [ <- | Ht ]; auto.
Qed.

Lemma max_fold_spec (rest : list Q) (x : Q) :
  let m := fold_left (fun m y => if ltb m y then y else m) rest x in
  In m (x :: rest) /\ x <= m /\ (forall t, In t rest -> t <= m).
Proof.
  revert x. induction rest as [ | y rest IH ]; intros x; simpl.
  - split; [ now left | split; [ apply Qle_refl | tauto ] ].
  - destruct (ltb x y) eqn:E.
    + destruct (IH y) as (Hin & Hy & Hall). split; [ | split ].
      * simpl in Hin |- *; tauto.
      * apply Qle_trans with (y := y); [ now apply ltb_true_le | exact Hy ].
      * intros t [ <- | Ht ]; [ exact Hy | now apply Hall ].
    + destruct (IH x) as (Hin & Hx & Hall). split; [ | split ].
      * simpl in Hin |- *; tauto.
      * exact Hx.
      * intros t [ <- | Ht ]; [ | now apply Hall ].
        apply Qle_trans with (y := x); [ now apply ltb_false_le | exact Hx ].
Qed.

(** [max] returns an element of the list that no element is above. *)
Lemma py_max_greatest (ts : list Q) (m : Q) :
  py_max ts = Ok m -> In m ts /\ (forall t, In t ts -> t <= m).
Proof.
  destruct ts as [ | x rest ]; simpl; [ discriminate | ].
  intros [= <-]. destruct (max_fold_spec rest x) as (Hin & Hx & Hall).
  split; [ exact Hin | ]. intros t [ <- | Ht ]; auto.
Qed.

(** On a list that is not empty the four statistics are defined. *)
Lemma statistics_defined (ts : list Q) :
  ts <> [] ->
  exists t_min t_max t_mean t_median,
    py_min ts = Ok t_min /\ py_max ts = Ok t_max
    /\ mean ts = Ok t_mean /\ median ts = Ok t_median.
Proof.
  intros Hne. destruct ts as [ | x rest ]; [ congruence | ].
  assert (Hmed : exists t, median (x :: rest) = Ok t).
  { unfold median. rewrite sorted_length.
    change (List.length (x :: rest)) with (S (List.length rest)).
    change (S (List.length rest) =? 0)%nat with false. cbv iota.
    destruct ((S (List.length rest)) mod 2 =? 1)%nat; eexists; reflexivity. }
  destruct Hmed as [t Ht].
  do 3 eexists. exists t. repeat split; try reflexivity. exact Ht.
Qed.

End Statistics.

(** ** Running monadic code *)

Section Running.

Lemma add_console_nil (s : State) : add_console s [] = s.
Proof. destruct s; unfold add_console; simpl. now rewrite app_nil_r. Qed.

Lemma add_console_app (s : State) (a b : list line) :
  add_console (add_console s a) b = add_console s (a ++ b).
Proof. unfold add_console; simpl. now rewrite app_assoc. Qed.

Lemma print_runs (l : line) (s : State) : print l s = (add_console s [l], Ok tt).
Proof. reflexivity. Qed.

Lemma print_str_runs (t : string) (s : State) :
  print_str t s = (add_console s [[Txt t]], Ok tt).
Proof. reflexivity. Qed.

Lemma lift_runs {A : Type} (r : Res A) (a : A) (s : State) :
  r = Ok a -> lift r s = (s, Ok a).
Proof. now intros ->. Qed.

Lemma write_runs (l : line) (s : State) (f : File) (older : list File) :
  files s = f :: older ->
  write l s = (set_files s (mkFile (filename f) (written f ++ [l]) :: older), Ok tt).
Proof. intros H. unfold write. now rewrite H. Qed.

Lemma open_w_runs (name : string) (s : State) :
  open_w name s = (set_files s (mkFile name [] :: files s), Ok tt).
Proof. reflexivity. Qed.

Lemma set_files_twice (s : State) (a b : list File) :
  set_files (set_files s a) b = set_files s b.
Proof. reflexivity. Qed.

Lemma bind_runs {A B : Type} (m : Py A) (k : A -> Py B) (s s' : State) (a : A) :
  m s = (s', Ok a) -> bind m k s = k a s'.
Proof. intros H. unfold bind. now rewrite H. Qed.

Lemma bind_raises {A B : Type} (m : Py A) (k : A -> Py B) (s s' : State) (e : Exc) :
  m s = (s', Raise e) -> bind m k s = (s', Raise e).
Proof. intros H. unfold bind. now rewrite H. Qed.

(** A loop that prints one line per element. *)
Lemma for_each_print {A : Type} (f : A -> line) (xs : list A) (s : State) :
  for_each xs (fun x => print (f x)) s = (add_console s (map f xs), Ok tt).
Proof.
  revert s. induction xs as [ | x xs IH ]; intros s; simpl.
  - now rewrite add_console_nil.
  - unfold bind. rewrite print_runs, IH, add_console_app. reflexivity.
Qed.

End Running.

(** One statement of a sequence that prints, and the state brought back to
    its fields. *)
Ltac step :=
  first
    [ rewrite (bind_runs _ _ _ _ tt (print_str_runs _ _))
    | rewrite (bind_runs _ _ _ _ tt (print_runs _ _)) ].

Ltac norm :=
  cbv beta iota delta
    [add_console set_files console results requested slept files filename written].

(** ** The probe *)

Section Probe.

Lemma test_single_url_ok (x : Exchange) (u : Text) (resp : Response) :
  answer x = Ok resp ->
  test_single_url x u
  = Ok (mkResult u (Some ((clock_after x - clock_before x) * 1000)%Q)
          (Some (Requests.status_code resp)) true None).
Proof. intros H. unfold test_single_url. now rewrite H. Qed.

Lemma test_single_url_timeout (x : Exchange) (u : Text) (e : Exc) :
  answer x = Raise e -> is_Timeout e = true ->
  test_single_url x u = Ok (mkResult u None None false (Some "请求超时")).
Proof. intros H Ht. unfold test_single_url. rewrite H. simpl. now rewrite Ht. Qed.

Lemma test_single_url_error (x : Exchange) (u : Text) (e : Exc) :
  answer x = Raise e -> is_Timeout e = false ->
  test_single_url x u = Ok (mkResult u None None false (Some (str e))).
Proof. intros H Ht. unfold test_single_url. rewrite H. simpl. now rewrite Ht. Qed.

(** The probe always returns a result, for the URL it was given, and a
    success carries its response time. *)
Lemma test_single_url_total (x : Exchange) (u : Text) :
  exists r, test_single_url x u = Ok r /\ url r = u /\ well_formed r = true.
Proof.
  destruct (answer x) as [resp | e] eqn:Ha.
  - eexists. split; [ now apply test_single_url_ok with (resp := resp) | now split ].
  - destruct (is_Timeout e) eqn:Ht.
    + eexists. split; [ now apply test_single_url_timeout with (e := e) | now split ].
    + eexists. split; [ now apply test_single_url_error with (e := e) | now split ].
Qed.

Lemma probe_is_result (env : Env) (i : nat) (u : Text) :
  test_single_url (page_exchange env i u) u = Ok (probe env i u).
Proof.
  unfold probe. destruct (test_single_url_total (page_exchange env i u) u) as (r & -> & _).
  reflexivity.
Qed.

Lemma probe_url (env : Env) (i : nat) (u : Text) : url (probe env i u) = u.
Proof.
  unfold probe. destruct (test_single_url_total (page_exchange env i u) u) as (r & -> & H & _).
  exact H.
Qed.

Lemma probe_well_formed (env : Env) (i : nat) (u : Text) :
  well_formed (probe env i u) = true.
Proof.
  unfold probe. destruct (test_single_url_total (page_exchange env i u) u) as (r & -> & _ & H).
  exact H.
Qed.

End Probe.

(** ** The report *)

Section Report.

Lemma well_formed_latency (r : Result) :
  well_formed r = true -> success r = true -> as_float (response_time r) = Ok (latency r).
Proof.
  unfold well_formed, latency. intros Hwf Hs. rewrite Hs in Hwf.
  now destruct (response_time r).
Qed.

Lemma floats_of_successes (rs : list Result) :
  forallb well_formed rs = true ->
  floats (map response_time (filter success rs)) = Ok (successful_latencies rs).
Proof.
  unfold successful_latencies.
  induction rs as [ | r rs IH ]; simpl; [ reflexivity | ].
  intros H. apply andb_prop in H. destruct H as [Hr Hrs].
  destruct (success r) eqn:Hs; simpl; [ | now apply IH ].
  rewrite (well_formed_latency r Hr Hs), (IH Hrs). reflexivity.
Qed.

Lemma successful_latencies_length (rs : list Result) :
  List.length (successful_latencies rs) = List.length (filter success rs).
Proof. unfold successful_latencies. apply length_map. Qed.

Lemma successful_latencies_empty (rs : list Result) :
  is_empty (successful_latencies rs) = is_empty (filter success rs).
Proof. unfold successful_latencies. now destruct (filter success rs). Qed.

Lemma report_statistics_runs (rs : list Result) (s : State) :
  forallb well_formed rs = true ->
  is_empty (filter success rs) = false ->
  report_statistics (filter success rs) s = (add_console s (statistics_block rs), Ok tt).
Proof.
  intros Hwf Hne.
  unfold statistics_block. rewrite successful_latencies_empty, Hne.
  assert (Hts : successful_latencies rs <> []).
  { intros E. rewrite <- successful_latencies_empty, E in Hne. discriminate. }
  destruct (statistics_defined _ Hts) as (a & b & c & d & Ha & Hb & Hc & Hd).
  rewrite Ha, Hb, Hc, Hd.
  unfold report_statistics. cbv zeta.
  rewrite <- successful_latencies_length.
  set (ts := successful_latencies rs) in *.
  step.
  rewrite (bind_runs _ _ _ _ ts (lift_runs _ _ _ (floats_of_successes rs Hwf))).
  rewrite (bind_runs _ _ _ _ a (lift_runs _ _ _ Ha)). step.
  rewrite (bind_runs _ _ _ _ b (lift_runs _ _ _ Hb)). step.
  rewrite (bind_runs _ _ _ _ c (lift_runs _ _ _ Hc)). step.
  rewrite (bind_runs _ _ _ _ d (lift_runs _ _ _ Hd)). do 4 step.
  rewrite print_runs. repeat rewrite add_console_app.
  reflexivity.
Qed.

Lemma file_loop_runs (rs : list Result) (s : State) (f : File) (older : list File) :
  files s = f :: older ->
  forallb well_formed rs = true ->
  for_each rs
    (fun result =>
       if success result
       then
         bind (lift (as_float (response_time result)))
           (fun t => write [Txt ("✓ " ++ pystr (url result) ++ " - "); Fix0 t;
                            Txt ("ms" ++ nl)])
       else
         write [Txt ("✗ " ++ pystr (url result) ++ " - " ++ pystr (error result) ++ nl)])
    s
  = (set_files s (mkFile (filename f) (written f ++ map file_line rs) :: older), Ok tt).
Proof.
  revert s f. induction rs as [ | r rs IH ]; intros s f Hf Hwf.
  - cbn [for_each map]. rewrite app_nil_r. unfold ret.
    destruct f as [name w]. cbn [filename written]. rewrite <- Hf.
    now destruct s.
  - cbn [forallb] in Hwf. apply andb_prop in Hwf. destruct Hwf as [Hr Hrs].
    cbn [for_each map]. unfold file_line at 1.
    destruct (success r) eqn:Hs.
    + rewrite (bind_runs _ _ s _ tt
                 (eq_trans (bind_runs _ _ s s _ (lift_runs _ _ _ (well_formed_latency r Hr Hs)))
                    (write_runs _ s f older Hf))).
      erewrite IH; [ | reflexivity | exact Hrs ]. rewrite set_files_twice.
      cbn [filename written]. now rewrite <- app_assoc.
    + rewrite (bind_runs _ _ s _ tt (write_runs _ s f older Hf)).
      erewrite IH; [ | reflexivity | exact Hrs ]. rewrite set_files_twice.
      cbn [filename written]. now rewrite <- app_assoc.
Qed.

Lemma failure_block_runs (rs : list Result) (s : State) :
  (if is_empty (filter (fun r => negb (success r)) rs) then ret tt
   else
     bind (print_str (nl ++ "失败页面详情:"))
       (fun _ => for_each (filter (fun r => negb (success r)) rs)
          (fun test => print_str ("  " ++ pystr (url test) ++ " - " ++ pystr (error test)))))
    s
  = (add_console s (failure_block rs), Ok tt).
Proof.
  unfold failure_block.
  destruct (is_empty (filter (fun r => negb (success r)) rs)).
  - now rewrite add_console_nil.
  - rewrite (bind_runs _ _ _ _ tt (print_str_runs _ _)).
    unfold print_str.
    rewrite (for_each_print failure_line), add_console_app. reflexivity.
Qed.

Lemma statistics_block_runs (rs : list Result) (s : State) :
  forallb well_formed rs = true ->
  (if is_empty (filter success rs) then ret tt else report_statistics (filter success rs)) s
  = (add_console s (statistics_block rs), Ok tt).
Proof.
  intros Hwf. destruct (is_empty (filter success rs)) eqn:E.
  - unfold statistics_block. rewrite successful_latencies_empty, E.
    now rewrite add_console_nil.
  - now apply report_statistics_runs.
Qed.

Lemma generate_report_runs (self : SitemapTester) (env : Env) (s : State) :
  results s <> [] ->
  forallb well_formed (results s) = true ->
  generate_report self env s
  = (set_files (add_console s (report_console env (results s)))
       (report_file self env (results s) :: files s), Ok tt).
Proof.
  intros Hne Hwf.
  unfold generate_report.
  rewrite (bind_runs _ _ s s (results s) eq_refl).
  replace (is_empty (results s)) with false by (now destruct (results s)).
  destruct s as [c rs q sl fs]. cbn [results] in *. norm.
  do 6 (step; norm).
  rewrite (bind_runs _ _ _ _ tt (statistics_block_runs rs _ Hwf)); norm.
  rewrite (bind_runs _ _ _ _ tt (failure_block_runs rs _)); norm.
  cbv zeta.
  rewrite (bind_runs _ _ _ _ tt (open_w_runs _ _)); norm.
  do 4 (erewrite bind_runs; [ | apply write_runs; reflexivity ]; norm).
  (erewrite bind_runs; [ | apply file_loop_runs; [ reflexivity | exact Hwf ] ]; norm).
  rewrite print_str_runs; norm.
  unfold report_console, summary_head, report_file, report_name.
  repeat rewrite <- app_assoc.
  reflexivity.
Qed.

End Report.

(** ** The thread pool *)

Section Pool.

Lemma numbered_futures (env : Env) (i : nat) (u : Text) (rest : list Text) :
  futures_of env i (u :: rest)
  = (mkFuture i (test_single_url (page_exchange env i u) u), u) :: futures_of env (S i) rest.
Proof. reflexivity. Qed.

Lemma submit_all_runs (env : Env) (urls : list Text) (i : nat) (s : State) :
  submit_all env i urls s
  = (set_requested s (requested s ++ urls), Ok (futures_of env i urls)).
Proof.
  revert i s. induction urls as [ | u rest IH ]; intros i s.
  - cbn [submit_all]. unfold ret, set_requested. rewrite app_nil_r. now destruct s.
  - cbn [submit_all]. rewrite numbered_futures.
    rewrite (bind_runs _ _ s _ tt eq_refl).
    rewrite (bind_runs _ _ _ _ _ (IH _ _)).
    unfold ret, set_requested. cbn [console results requested slept files].
    now rewrite <- app_assoc.
Qed.

Lemma futures_of_fst (env : Env) (urls : list Text) (i : nat) :
  map (fun p => result_of (fst p)) (futures_of env i urls)
  = map (fun '(j, u) => probe env j u) (numbered i urls).
Proof.
  revert i. induction urls as [ | u rest IH ]; intros i; [ reflexivity | ].
  rewrite numbered_futures. cbn [map numbered fst]. rewrite IH. f_equal.
  unfold result_of. cbn [outcome]. now rewrite probe_is_result.
Qed.

Lemma futures_of_snd (env : Env) (urls : list Text) (i : nat) :
  map snd (futures_of env i urls) = urls.
Proof.
  revert i. induction urls as [ | u rest IH ]; intros i; [ reflexivity | ].
  rewrite numbered_futures. cbn [map snd]. now rewrite IH.
Qed.

Lemma futures_of_rank (env : Env) (urls : list Text) (i : nat) (f : Future) (u : Text) :
  In (f, u) (futures_of env i urls) -> (i <= fid f)%nat.
Proof.
  revert i. induction urls as [ | u0 rest IH ]; intros i; [ contradiction | ].
  rewrite numbered_futures. intros [ [= <- _] | Hin ]; [ cbn; lia | ].
  apply IH in Hin. lia.
Qed.

Lemma futures_of_outcome (env : Env) (urls : list Text) (i : nat) (f : Future) (u : Text) :
  In (f, u) (futures_of env i urls) ->
  outcome f = Ok (result_of f) /\ well_formed (result_of f) = true /\ url (result_of f) = u.
Proof.
  revert i. induction urls as [ | u0 rest IH ]; intros i; [ contradiction | ].
  rewrite numbered_futures. intros [ [= <- <-] | Hin ]; [ | now apply IH in Hin ].
  unfold result_of. cbn [outcome]. rewrite probe_is_result.
  split; [ reflexivity | split; [ apply probe_well_formed | apply probe_url ] ].
Qed.

(** The futures of one pool have distinct ranks, so the dict finds for each
    future the URL it was submitted with. *)
Lemma dict_get_future (env : Env) (urls : list Text) (i : nat) (f : Future) (u : Text) :
  In (f, u) (futures_of env i urls) -> dict_get (futures_of env i urls) f = Ok u.
Proof.
  revert i. induction urls as [ | u0 rest IH ]; intros i; [ contradiction | ].
  rewrite numbered_futures. intros [ [= <- <-] | Hin ].
  - cbn [dict_get fid]. now rewrite Nat.eqb_refl.
  - cbn [dict_get fid]. pose proof (futures_of_rank _ _ _ _ _ Hin) as Hrank.
    replace (i =? fid f)%nat with false by (symmetry; apply Nat.eqb_neq; lia).
    now apply IH.
Qed.

Lemma try_except_runs {A : Type} (m : Py A) (h : Exc -> Py A) (s s' : State) (a : A) :
  m s = (s', Ok a) -> try_except m h s = (s', Ok a).
Proof. intros H. unfold try_except. now rewrite H. Qed.

Lemma on_completed_runs (self : SitemapTester) (n_urls : Z) (d : list (Future * Text))
    (i : Z) (f : Future) (u : Text) (s : State) :
  dict_get d f = Ok u ->
  outcome f = Ok (result_of f) ->
  well_formed (result_of f) = true ->
  on_completed self n_urls d i f s = (after_one self n_urls d i f s, Ok tt).
Proof.
  intros Hd Ho Hwf. unfold on_completed.
  rewrite (bind_runs _ _ _ _ u (lift_runs _ _ _ Hd)).
  apply try_except_runs.
  rewrite (bind_runs _ _ _ _ _ (lift_runs _ _ _ Ho)).
  rewrite (bind_runs _ _ s _ tt eq_refl).
  unfold after_one, progress_line, url_of, pause. rewrite Hd.
  destruct s as [c rs q sl fs]. norm.
  destruct (success (result_of f)) eqn:Hs.
  - rewrite (bind_runs _ _ _ _ _
               (eq_trans (bind_runs _ _ _ _ _ (lift_runs _ _ _ (well_formed_latency _ Hwf Hs)))
                  (print_runs _ _))).
    norm. now destruct (max_workers self =? 1)%Z.
  - rewrite (bind_runs _ _ _ _ tt (print_str_runs _ _)).
    norm. now destruct (max_workers self =? 1)%Z.
Qed.

Lemma pool_loop_runs (self : SitemapTester) (n_urls : Z) (d : list (Future * Text))
    (items : list (Z * Future)) (s : State) :
  (forall i f, In (i, f) items ->
     exists u, dict_get d f = Ok u /\ outcome f = Ok (result_of f)
               /\ well_formed (result_of f) = true) ->
  for_each items (fun '(i, future) => on_completed self n_urls d i future) s
  = (after_loop self n_urls d items s, Ok tt).
Proof.
  revert s. induction items as [ | [i f] rest IH ]; intros s Hall; [ reflexivity | ].
  cbn [for_each after_loop].
  destruct (Hall i f (or_introl eq_refl)) as (u & Hd & Ho & Hwf).
  rewrite (bind_runs _ _ _ _ tt (on_completed_runs self n_urls d i f u s Hd Ho Hwf)).
  apply IH. intros j g Hin. apply (Hall j g). now right.
Qed.

Lemma remove_nth_permutation {A : Type} (l : list A) (k : nat) (d : A) :
  (k < List.length l)%nat -> Permutation (nth k l d :: remove_nth k l) l.
Proof.
  revert k. induction l as [ | x l IH ]; intros k Hk; [ cbn in Hk; lia | ].
  destruct k as [ | k ]; cbn [nth remove_nth]; [ reflexivity | ].
  rewrite perm_swap. apply perm_skip, IH. cbn in Hk. lia.
Qed.

Lemma remove_nth_length {A : Type} (l : list A) (k : nat) :
  (k < List.length l)%nat -> List.length (remove_nth k l) = pred (List.length l).
Proof.
  revert k. induction l as [ | x l IH ]; intros k Hk; [ cbn in Hk; lia | ].
  destruct k as [ | k ]; cbn [remove_nth List.length]; [ reflexivity | ].
  cbn in Hk. rewrite IH by lia. destruct l; cbn in *; lia.
Qed.

(** [as_completed] yields every pending future exactly once, whatever the
    order of completion. *)
Lemma as_completed_permutation (choose : nat -> nat) (pending : list Future) (step : nat) :
  Permutation (as_completed choose step (List.length pending) pending) pending.
Proof.
  remember (List.length pending) as n eqn:Hn.
  revert pending step Hn. induction n as [ | n IH ]; intros pending step Hn.
  - destruct pending; [ constructor | discriminate ].
  - destruct pending as [ | f0 rest ]; [ discriminate | ].
    cbn [as_completed].
    set (k := (choose step mod List.length (f0 :: rest))%nat).
    assert (Hk : (k < List.length (f0 :: rest))%nat)
      by (apply Nat.mod_upper_bound; cbn; lia).
    apply Permutation_trans with (l' := nth k (f0 :: rest) f0 :: remove_nth k (f0 :: rest));
      [ | now apply remove_nth_permutation ].
    apply perm_skip, IH.
    rewrite (remove_nth_length _ _ Hk), <- Hn. reflexivity.
Qed.

Lemma enumerate_snd {A : Type} (l : list A) (i : Z) : map snd (enumerate i l) = l.
Proof.
  revert i. induction l as [ | x l IH ]; intros i; [ reflexivity | ].
  cbn [enumerate map snd]. now rewrite IH.
Qed.

Lemma after_loop_results (self : SitemapTester) (n_urls : Z) (d : list (Future * Text))
    (items : list (Z * Future)) (s : State) :
  results (after_loop self n_urls d items s)
  = (results s ++ map (fun p => result_of (snd p)) items)%list.
Proof.
  revert s. induction items as [ | [i f] rest IH ]; intros s; cbn [after_loop map].
  - now rewrite app_nil_r.
  - rewrite IH. unfold after_one. cbn [results snd]. now rewrite <- app_assoc.
Qed.

Lemma after_loop_keeps (self : SitemapTester) (n_urls : Z) (d : list (Future * Text))
    (items : list (Z * Future)) (s : State) :
  requested (after_loop self n_urls d items s) = requested s
  /\ files (after_loop self n_urls d items s) = files s.
Proof.
  revert s. induction items as [ | [i f] rest IH ]; intros s; cbn [after_loop].
  - now split.
  - destruct (IH (after_one self n_urls d i f s)) as [-> ->]. now split.
Qed.

Lemma after_loop_slept (self : SitemapTester) (n_urls : Z) (d : list (Future * Text))
    (items : list (Z * Future)) (s : State) :
  max_workers self = 1%Z ->
  slept (after_loop self n_urls d items s) == slept s + of_nat (List.length items).
Proof.
  intros Hw. revert s. induction items as [ | [i f] rest IH ]; intros s; cbn [after_loop].
  - unfold of_nat. cbn. ring.
  - rewrite IH. unfold after_one, pause. cbn [slept]. rewrite Hw. cbn [Z.eqb Pos.eqb].
    change (List.length ((i, f) :: rest)) with (S (List.length rest)).
    unfold of_nat. rewrite Nat2Z.inj_succ, <- Z.add_1_r, inject_Z_plus. ring.
Qed.

(** The pool: every URL is handed to a worker, and every future is
    collected. *)
Lemma run_test_pool_runs (self : SitemapTester) (env : Env) (urls : list Text) (s : State) :
  (0 < max_workers self)%Z ->
  let d := futures_of env 0 urls in
  let fs := map fst d in
  run_test_pool self env urls s
  = (after_loop self (len urls) d
       (enumerate 1 (as_completed (completes_next env) 0 (List.length fs) fs))
       (set_requested s (requested s ++ urls)), Ok tt).
Proof.
  intros Hw d fs. unfold run_test_pool.
  replace (max_workers self <=? 0)%Z with false by (symmetry; apply Z.leb_gt; exact Hw).
  rewrite (bind_runs _ _ s s tt eq_refl).
  rewrite (bind_runs _ _ _ _ _ (submit_all_runs env urls 0%nat s)).
  fold d. fold fs.
  apply pool_loop_runs. intros i f Hin.
  assert (Hf : In f fs).
  { apply (Permutation_in f (as_completed_permutation (completes_next env) fs 0)).
    rewrite <- (enumerate_snd (as_completed _ _ _ fs) 1).
    change f with (snd (i, f)). now apply in_map. }
  unfold fs in Hf. apply in_map_iff in Hf. destruct Hf as ([g u] & Hg & Hin').
  cbn [fst] in Hg. subst g.
  exists u. split; [ now apply dict_get_future | ].
  destruct (futures_of_outcome _ _ _ _ _ Hin') as (Ho & Hwf & _). now split.
Qed.

End Pool.

(** ** The sitemap *)

Section Sitemap.

Lemma iter_unfold (e : Element) : iter e = e :: flat_map iter (children e).
Proof. now destruct e. Qed.

Lemma collect_loop (us : list Element) (acc : list Text) :
  fold_left
    (fun urls u =>
       match find u loc_tag with
       | Some loc => (urls ++ [text loc])%list
       | None => urls
       end) us acc
  = (acc ++ flat_map loc_of us)%list.
Proof.
  revert acc. induction us as [ | u us IH ]; intros acc; cbn [fold_left flat_map].
  - now rewrite app_nil_r.
  - rewrite IH. unfold loc_of at 2. destruct (find u loc_tag).
    + now rewrite <- app_assoc.
    + reflexivity.
Qed.

(** The loop of [parse_sitemap] gives the [<loc>] text of the [<url>]
    children of the root, in order. *)
Lemma collect_locs_children (root : Element) :
  collect_locs root = flat_map loc_of (findall root url_tag).
Proof. unfold collect_locs. now rewrite collect_loop. Qed.

Lemma no_entry_below (es : list Element) :
  forallb (fun d => negb (is_url d)) es = true -> filter is_url es = [].
Proof.
  induction es as [ | e es IH ]; cbn [forallb filter]; [ reflexivity | ].
  intros H. apply andb_prop in H. destruct H as [He Hes].
  destruct (is_url e); [ discriminate | now apply IH ].
Qed.

Lemma entries_among_children (cs : list Element) :
  forallb (fun c => forallb (fun d => negb (is_url d)) (flat_map iter (children c))) cs = true ->
  filter is_url (flat_map iter cs) = filter is_url cs.
Proof.
  induction cs as [ | c cs IH ]; cbn [forallb flat_map]; [ reflexivity | ].
  intros H. apply andb_prop in H. destruct H as [Hc Hcs].
  rewrite filter_app, IH by exact Hcs. rewrite iter_unfold.
  cbn [filter]. rewrite (no_entry_below _ Hc).
  now destruct (is_url c).
Qed.

(** In a sitemap document the [<url>] elements are the [<url>] children of
    the root. *)
Lemma url_elements_of_document (root : Element) :
  sitemap_document root = true -> url_elements root = findall root url_tag.
Proof.
  unfold sitemap_document. intros H. apply andb_prop in H. destruct H as [Hroot Hcs].
  unfold url_elements. rewrite iter_unfold. cbn [filter].
  apply String.eqb_eq in Hroot.
  unfold is_url at 1. rewrite Hroot.
  replace (String.eqb (qname sitemap_ns "urlset") url_tag) with false by reflexivity.
  now apply entries_among_children.
Qed.

Lemma locs_length (us : list Element) :
  forallb has_loc us = true -> List.length (flat_map loc_of us) = List.length us.
Proof.
  induction us as [ | u us IH ]; cbn [forallb flat_map]; [ reflexivity | ].
  intros H. apply andb_prop in H. destruct H as [Hu Hus].
  rewrite length_app, (IH Hus). unfold loc_of, has_loc in *.
  now destruct (find u loc_tag).
Qed.

Example entry_without_loc_is_skipped :
  sitemap_document document_with_a_gap = true
  /\ List.length (url_elements document_with_a_gap) = 3%nat
  /\ collect_locs document_with_a_gap
     = [Some "http://example.org/a"; Some "http://example.org/c"].
Proof. repeat split. Qed.

Lemma parse_sitemap_fails (self : SitemapTester) (env : Env) (e : Exc) (s : State) :
  sitemap_error env = Some e ->
  parse_sitemap self env s
  = (add_console s [ [Txt ("正在获取网站地图: " ++ sitemap_url self)];
                     [Txt ("解析网站地图失败: " ++ str e)] ], Ok []).
Proof.
  unfold sitemap_error. intros He. unfold parse_sitemap, try_except.
  rewrite (bind_runs _ _ _ _ tt (print_str_runs _ _)).
  destruct (sitemap_answer env) as [response | e0] eqn:Ha.
  - rewrite (bind_runs _ _ _ _ response (lift_runs _ _ _ eq_refl)).
    destruct (raise_for_status response) as [ [] | e1 ] eqn:Hs.
    + rewrite (bind_runs _ _ _ _ tt (lift_runs _ _ _ eq_refl)).
      destruct (fromstring (content response)) as [root | e2] eqn:Hx; [ discriminate | ].
      injection He as ->.
      rewrite (bind_raises _ _ _ _ e eq_refl).
      rewrite (bind_runs _ _ _ _ tt (print_str_runs _ _)).
      unfold ret. now rewrite add_console_app.
    + injection He as ->.
      rewrite (bind_raises _ _ _ _ e eq_refl).
      rewrite (bind_runs _ _ _ _ tt (print_str_runs _ _)).
      unfold ret. now rewrite add_console_app.
  - injection He as ->.
    rewrite (bind_raises _ _ _ _ e eq_refl).
    rewrite (bind_runs _ _ _ _ tt (print_str_runs _ _)).
    unfold ret. now rewrite add_console_app.
Qed.

Lemma parse_sitemap_reads (self : SitemapTester) (env : Env) (response : Response)
    (root : Element) (s : State) :
  sitemap_answer env = Ok response ->
  raise_for_status response = Ok tt ->
  content response = XML root ->
  parse_sitemap self env s
  = (add_console s [ [Txt ("正在获取网站地图: " ++ sitemap_url self)];
                     [Txt ("成功解析 " ++ str_int (len (collect_locs root)) ++ " 个URL")] ],
     Ok (collect_locs root)).
Proof.
  intros Ha Hs Hx. unfold parse_sitemap, try_except.
  rewrite (bind_runs _ _ _ _ tt (print_str_runs _ _)).
  rewrite (bind_runs _ _ _ _ response (lift_runs _ _ _ Ha)).
  rewrite (bind_runs _ _ _ _ tt (lift_runs _ _ _ Hs)).
  rewrite Hx. rewrite (bind_runs _ _ _ _ root (lift_runs _ _ _ eq_refl)).
  cbv zeta.
  rewrite (bind_runs _ _ _ _ tt (print_str_runs _ _)).
  unfold ret. now rewrite add_console_app.
Qed.

(** When [parse_sitemap] returns an empty list the run stops there. *)
Lemma run_test_stops (self : SitemapTester) (env : Env) (lines : list line) (s : State) :
  (forall s0, parse_sitemap self env s0 = (add_console s0 lines, Ok [])) ->
  run_test self env s
  = (add_console s
       ([ [Txt "开始测试网站地图中的页面..."]; [Txt (str_mul "=" 60)] ]
        ++ lines ++ [ [Txt "没有找到可测试的URL"] ]), Ok tt).
Proof.
  intros Hparse. unfold run_test.
  do 2 step.
  rewrite (bind_runs _ _ _ _ _ (Hparse _)).
  cbn [is_empty]. rewrite print_str_runs.
  now rewrite !add_console_app.
Qed.

End Sitemap.

(** ** Real time with one worker *)

Section PacingFacts.

Local Open Scope Q_scope.

(** The worker never waits: each request begins when the one before it
    has ended. *)
Lemma worker_gaps (t0 now : Q) (durations : list Q) :
  Forall (fun g => g == 0) (gaps (worker t0 now durations)).
Proof.
  revert now. induction durations as [ | d rest IH ]; intros now; cbn [worker gaps].
  - constructor.
  - destruct rest as [ | d' rest' ]; cbn [worker]; [ constructor | ].
    constructor.
    + cbn [began ended]. ring.
    + apply (IH (now + d)).
Qed.

Lemma worker_submitted (t0 now : Q) (durations : list Q) :
  Forall (fun f => submitted f = t0) (worker t0 now durations).
Proof.
  revert now. induction durations as [ | d rest IH ]; intros now; cbn [worker];
    constructor; [ reflexivity | apply IH ].
Qed.

Lemma worker_length (t0 now : Q) (durations : list Q) :
  List.length (worker t0 now durations) = List.length durations.
Proof.
  revert now. induction durations as [ | d rest IH ]; intros now; cbn [worker List.length];
    [ reflexivity | now rewrite IH ].
Qed.

(** With one worker the main thread sleeps one second for each future. *)
Lemma collect_lower_bound (self : SitemapTester) (now : Q) (spans : list Span) :
  max_workers self = 1%Z ->
  now + of_nat (List.length spans) <= collect self now spans.
Proof.
  intros Hw. revert now. induction spans as [ | f rest IH ]; intros now; cbn [collect].
  - unfold of_nat. cbn. rewrite Qplus_0_r. apply Qle_refl.
  - rewrite Hw. cbn [Z.eqb Pos.eqb].
    eapply Qle_trans; [ | apply IH ].
    change (List.length (f :: rest)) with (S (List.length rest)).
    unfold of_nat. rewrite Nat2Z.inj_succ, <- Z.add_1_r, inject_Z_plus.
    assert (H : now <= Qmax now (ended f)) by apply Q.le_max_l.
    apply Qle_trans with (y := Qmax now (ended f) + 1 + inject_Z (Z.of_nat (List.length rest))).
    + rewrite (Qplus_comm (inject_Z (Z.of_nat (List.length rest))) (inject_Z 1)).
      rewrite Qplus_assoc. apply Qplus_le_compat; [ | apply Qle_refl ].
      apply Qplus_le_compat; [ exact H | apply Qle_refl ].
    + apply Qle_refl.
Qed.

Lemma run_time_lower_bound (self : SitemapTester) (t0 : Q) (durations : list Q) :
  max_workers self = 1%Z ->
  of_nat (List.length durations) <= run_time self t0 durations.
Proof.
  intros Hw. unfold run_time.
  pose proof (collect_lower_bound self t0 (worker t0 t0 durations) Hw) as H.
  rewrite worker_length in H.
  apply Qle_minus_iff in H. apply Qle_minus_iff.
  setoid_replace (collect self t0 (worker t0 t0 durations) - t0
                  + - of_nat (List.length durations))
    with (collect self t0 (worker t0 t0 durations)
          + - (t0 + of_nat (List.length durations))) by ring.
  exact H.
Qed.

End PacingFacts.

(** ** The whole run *)

Section WholeRun.

Lemma order_well_formed (env : Env) (urls : list Text) (order : list Future) :
  Permutation order (map fst (futures_of env 0 urls)) ->
  forallb well_formed (map result_of order) = true.
Proof.
  intros Hperm. apply forallb_forall. intros r Hr.
  apply in_map_iff in Hr. destruct Hr as (f & <- & Hf).
  apply (Permutation_in f Hperm) in Hf.
  apply in_map_iff in Hf. destruct Hf as ([g u] & Hg & Hin). cbn [fst] in Hg. subst g.
  now destruct (futures_of_outcome _ _ _ _ _ Hin) as (_ & Hwf & _).
Qed.

(** A run on a sitemap with at least one URL: every URL is probed and the
    report is written, with one line per result. *)
Lemma run_test_reports (self : SitemapTester) (env : Env) (lines : list line)
    (urls : list Text) (s : State) :
  (forall s0, parse_sitemap self env s0 = (add_console s0 lines, Ok urls)) ->
  urls <> [] ->
  (0 < max_workers self)%Z ->
  forallb well_formed (results s) = true ->
  let order :=
    as_completed (completes_next env) 0 (List.length urls) (map fst (futures_of env 0 urls)) in
  exists final,
    run_test self env s = (final, Ok tt)
    /\ results final = (results s ++ map result_of order)%list
    /\ requested final = (requested s ++ urls)%list
    /\ files final = report_file self env (results final) :: files s.
Proof.
  intros Hparse Hne Hw Hwf order.
  assert (Hlen : List.length (map fst (futures_of env 0 urls)) = List.length urls).
  { rewrite length_map. rewrite <- (futures_of_snd env urls 0) at 2. now rewrite length_map. }
  unfold run_test. do 2 step.
  rewrite (bind_runs _ _ _ _ _ (Hparse _)).
  replace (is_empty urls) with false by (now destruct urls).
  do 2 step. cbv zeta.
  match goal with
  | |- exists final, bind (run_test_pool self env urls) _ ?st = _ /\ _ => set (s1 := st)
  end.
  assert (Hs1 : results s1 = results s /\ requested s1 = requested s /\ files s1 = files s)
    by now repeat split.
  destruct Hs1 as (Hr1 & Hq1 & Hf1).
  rewrite (bind_runs _ _ _ _ tt (run_test_pool_runs self env urls s1 Hw)).
  rewrite Hlen. fold order. clearbody s1.
  step.
  match goal with
  | |- exists final, generate_report self env ?st = _ /\ _ => set (before_report := st)
  end.
  assert (Hres : results before_report = (results s ++ map result_of order)%list).
  { unfold before_report. unfold add_console at 1. cbn [results].
    rewrite after_loop_results. cbn [set_requested results]. rewrite Hr1.
    now rewrite <- (map_map snd result_of), enumerate_snd. }
  assert (Hkeep : requested before_report = (requested s ++ urls)%list
                  /\ files before_report = files s).
  { unfold before_report, add_console. cbn [requested files].
    destruct (after_loop_keeps self (len urls) (futures_of env 0 urls) (enumerate 1 order)
                (set_requested s1 (requested s1 ++ urls))) as [-> ->].
    cbn [set_requested requested files]. rewrite Hq1, Hf1. now split. }
  assert (Hwf' : forallb well_formed (results before_report) = true).
  { rewrite Hres, forallb_app, Hwf. cbn [andb].
    apply (order_well_formed env urls). unfold order. rewrite <- Hlen.
    apply as_completed_permutation. }
  assert (Hne' : results before_report <> []).
  { rewrite Hres. intros E. apply app_eq_nil in E. destruct E as [_ E].
    apply map_eq_nil in E.
    assert (Hl : List.length order = List.length urls).
    { unfold order. rewrite <- Hlen. apply Permutation_length, as_completed_permutation. }
    rewrite E in Hl. destruct urls; [ congruence | discriminate ]. }
  clearbody before_report.
  eexists. split; [ apply (generate_report_runs self env before_report Hne' Hwf') | ].
  cbn [set_files add_console results requested files].
  destruct Hkeep as [Hq Hf]. rewrite Hres, Hq, Hf. now repeat split.
Qed.

End WholeRun.

(** * The claims *)

Section Claims.

Local Open Scope Q_scope.

(** C10, as stated: the three percentages add up to 100.  It fails on the
    floats the program computes: with one response time in each class every
    share is [1 / 3 * 100], which is 33.333333333333329 in binary64, and
    the three of them add up to 99.999999999999986. *)
Lemma three_thirds_are_below_100 :
  fast one_per_class = 1%nat /\ medium one_per_class = 1%nat /\ slow one_per_class = 1%nat
  /\ PrimFloat.ltb
       (PrimFloat.add
          (PrimFloat.add (percent_binary64 (fast one_per_class) 3)
             (percent_binary64 (medium one_per_class) 3))
          (percent_binary64 (slow one_per_class) 3))
       100%float = true.
Proof. repeat split. Qed.

(** C10, amended.  The three classes of the distribution ([< 500],
    [500 <= t < 2000], [>= 2000]) are disjoint and exhaustive: every
    response time is in exactly one of them, and the three counts add up to
    the number of response times. *)
Theorem distribution_is_a_partition (ts : list Q) :
  (forall t,
      (in_fast t = true /\ in_medium t = false /\ in_slow t = false)
      \/ (in_fast t = false /\ in_medium t = true /\ in_slow t = false)
      \/ (in_fast t = false /\ in_medium t = false /\ in_slow t = true))
  /\ (fast ts + medium ts + slow ts = List.length ts)%nat.
Proof.
  split; [ exact one_class | apply classes_count ].
Qed.

(** C8.  With no result collected, [generate_report] prints that there is
    nothing to report and returns: no file is opened. *)
Theorem empty_results_no_report (self : SitemapTester) (env : Env) (s : State) :
  results s = [] ->
  generate_report self env s = (add_console s [[Txt "没有测试结果可报告"]], Ok tt)
  /\ files (fst (generate_report self env s)) = files s.
Proof.
  intros Hrs.
  assert (H : generate_report self env s
              = (add_console s [[Txt "没有测试结果可报告"]], Ok tt)).
  { unfold generate_report. rewrite (bind_runs _ _ s s (results s) eq_refl).
    rewrite Hrs. reflexivity. }
  split; [ exact H | now rewrite H ].
Qed.

Lemma empty_results_no_report_witness :
  results initial = []
  /\ generate_report example_tester (example_env 200 "OK") initial
     = (add_console initial [[Txt "没有测试结果可报告"]], Ok tt)
  /\ files (fst (generate_report example_tester (example_env 200 "OK") initial)) = [].
Proof.
  split; [ reflexivity | ].
  apply (empty_results_no_report example_tester (example_env 200 "OK") initial).
  reflexivity.
Defined.

(** C5, as stated: a request that times out gives the fixed text.  It
    fails for a request that times out while the body is read: [requests]
    raises a [ConnectionError], the first [except] clause does not apply,
    and the result carries the message of the exception. *)
Lemma timeout_in_the_body_keeps_its_message :
  is_Timeout
    (mkExc ConnectionError "HTTPConnectionPool(host='example.org', port=80): Read timed out.")
  = false
  /\ exists r,
       test_single_url body_read_timed_out (Some "http://example.org/a") = Ok r
       /\ success r = false
       /\ error r
          = Some "HTTPConnectionPool(host='example.org', port=80): Read timed out."
       /\ error r <> Some "请求超时".
Proof.
  split; [ reflexivity | ].
  eexists. split; [ reflexivity | ]. cbn. repeat split. discriminate.
Qed.

(** C5, amended.  [test_single_url] never raises.  Whatever [session.get]
    does, it returns a result for the URL it was given; when the request
    raised, the result is a failure without response time or status and
    with a message: the fixed text "请求超时" (request timed out) when the
    exception is a [requests.exceptions.Timeout], the message of the
    exception in every other case. *)
Theorem probe_never_raises (x : Exchange) (u : Text) :
  exists r,
    test_single_url x u = Ok r
    /\ url r = u
    /\ (forall e, answer x = Raise e ->
          success r = false /\ response_time r = None /\ status_code r = None
          /\ exists msg, error r = Some msg)
    /\ (forall e, answer x = Raise e -> is_Timeout e = true -> error r = Some "请求超时")
    /\ (forall e, answer x = Raise e -> is_Timeout e = false -> error r = Some (str e)).
Proof.
  destruct (answer x) as [resp | e] eqn:Ha.
  - eexists. split; [ apply (test_single_url_ok x u resp Ha) | ].
    split; [ reflexivity | split; [ | split ]; intros e He; discriminate ].
  - destruct (is_Timeout e) eqn:Ht.
    + eexists. split; [ apply (test_single_url_timeout x u e Ha Ht) | ].
      split; [ reflexivity | split; [ | split ] ].
      * intros e' _. cbn. repeat split. now eexists.
      * intros e' _ _. reflexivity.
      * intros e' [= <-] Ht'. congruence.
    + eexists. split; [ apply (test_single_url_error x u e Ha Ht) | ].
      split; [ reflexivity | split; [ | split ] ].
      * intros e' _. cbn. repeat split. now eexists.
      * intros e' [= <-] Ht'. congruence.
      * intros e' [= <-] _. reflexivity.
Qed.

Lemma probe_never_raises_witness :
  answer timed_out = Raise (mkExc ReadTimeout "Read timed out. (read timeout=10)")
  /\ is_Timeout (mkExc ReadTimeout "Read timed out. (read timeout=10)") = true
  /\ exists r,
       test_single_url timed_out (Some "http://example.org/a") = Ok r
       /\ error r = Some "请求超时".
Proof.
  split; [ reflexivity | split; [ reflexivity | ] ].
  destruct (probe_never_raises timed_out (Some "http://example.org/a"))
    as (r & Hr & _ & _ & Ht & _).
  exists r. split; [ exact Hr | ].
  apply (Ht (mkExc ReadTimeout "Read timed out. (read timeout=10)")); reflexivity.
Defined.

(** C6, as stated: the response time is measured on a monotonic clock, so
    it cannot be negative.  It fails: [time.time()] is the wall clock, and
    when that clock is set back during the request the probe reports a
    success with a negative response time. *)
Lemma response_time_can_be_negative :
  ~ (clock_before clock_set_back <= clock_after clock_set_back)
  /\ exists r t,
       test_single_url clock_set_back (Some "http://example.org/a") = Ok r
       /\ success r = true
       /\ response_time r = Some t
       /\ t < 0.
Proof.
  split.
  - cbn. intros H. apply Qle_bool_iff in H. discriminate.
  - eexists. eexists. repeat split.
Qed.

(** C6, amended.  Whenever [session.get] returns a response, the probe
    reports a success whose response time is [(end - start) * 1000], the
    two readings of [time.time()] around the request, and whose status is
    the one the server sent, whatever it is (4xx and 5xx included). *)
Theorem probe_success_on_any_status (x : Exchange) (u : Text) (response : Response) :
  answer x = Ok response ->
  test_single_url x u
  = Ok (mkResult u (Some ((clock_after x - clock_before x) * 1000))
          (Some (Requests.status_code response)) true None).
Proof. apply test_single_url_ok. Qed.

Lemma probe_success_on_any_status_witness :
  answer (mkExchange 100 (Ok page_503) (100 + (1 # 4))) = Ok page_503
  /\ test_single_url (mkExchange 100 (Ok page_503) (100 + (1 # 4))) (Some "http://example.org/a")
     = Ok (mkResult (Some "http://example.org/a")
             (Some ((100 + (1 # 4) - 100) * 1000)) (Some 503%Z) true None).
Proof.
  split; [ reflexivity | ].
  apply (probe_success_on_any_status (mkExchange 100 (Ok page_503) (100 + (1 # 4)))
           (Some "http://example.org/a") page_503).
  reflexivity.
Defined.

(** C3, as stated: of the response times 100, 300, 700, 1500 and 3000 one
    is below 500 ms and three are between 500 ms and 2 s.  It fails: 300 is
    below 500 as well. *)
Lemma five_latencies_are_not_1_3_1 :
  ~ (fast five_latencies = 1%nat /\ medium five_latencies = 3%nat
     /\ slow five_latencies = 1%nat).
Proof. intros (H & _). vm_compute in H. discriminate. Qed.

(** C3, amended.  For five successes with response times 100, 300, 700,
    1500 and 3000 ms the report shows min 100, max 3000, mean 1120, median
    700 and the distribution 2 (40%), 2 (40%), 1 (20%).  In general the
    statistics printed by [generate_report] are those of the response times
    of the successful results only, and the median of an even number of
    values is the mean of the two middle values of the sorted data. *)
Theorem statistics_of_successes :
  (py_min five_latencies = Ok 100
   /\ py_max five_latencies = Ok 3000
   /\ (exists m, mean five_latencies = Ok m /\ m == 1120)
   /\ median five_latencies = Ok 700
   /\ fast five_latencies = 2%nat /\ medium five_latencies = 2%nat
   /\ slow five_latencies = 1%nat
   /\ same_lines (statistics_block five_successes)
        [ [Txt (nl ++ "响应时间统计 (毫秒):")];
          [Txt "  最快: "; Fix0 100; Txt "ms"];
          [Txt "  最慢: "; Fix0 3000; Txt "ms"];
          [Txt "  平均: "; Fix0 1120; Txt "ms"];
          [Txt "  中位数: "; Fix0 700; Txt "ms"];
          [Txt (nl ++ "响应时间分布:")];
          [Txt "  < 500ms: 2 个页面 ("; Fix1 40; Txt "%)"];
          [Txt "  500ms-2s: 2 个页面 ("; Fix1 40; Txt "%)"];
          [Txt "  > 2s: 1 个页面 ("; Fix1 20; Txt "%)"] ] = true)
  /\ (forall self env s,
        forallb well_formed (results s) = true ->
        filter success (results s) <> [] ->
        let ts := map latency (filter success (results s)) in
        exists t_min t_max t_mean t_median before after,
          py_min ts = Ok t_min /\ py_max ts = Ok t_max
          /\ mean ts = Ok t_mean /\ median ts = Ok t_median
          /\ snd (generate_report self env s) = Ok tt
          /\ console (fst (generate_report self env s))
             = (before ++ statistics_lines ts t_min t_max t_mean t_median ++ after)%list)
  /\ (forall ts k,
        List.length ts = (2 * S k)%nat ->
        Sorted Qle (sorted ts) /\ Permutation ts (sorted ts)
        /\ median ts = Ok ((nth k (sorted ts) 0 + nth (S k) (sorted ts) 0) / 2)).
Proof.
  split; [ | split ].
  - repeat split; try reflexivity.
    eexists. split; [ reflexivity | reflexivity ].
  - intros self env s Hwf Hne ts.
    assert (Hrs : results s <> []).
    { intros E. rewrite E in Hne. now apply Hne. }
    assert (Hts : ts <> []).
    { unfold ts. intros E. apply map_eq_nil in E. now apply Hne. }
    destruct (statistics_defined ts Hts) as (a & b & c & d & Ha & Hb & Hc & Hd).
    exists a, b, c, d.
    rewrite (generate_report_runs self env s Hrs Hwf).
    exists (console s ++ summary_head (results s))%list.
    exists (failure_block (results s)
            ++ [ [Txt (nl ++ "详细结果已保存到: " ++ report_name env)] ])%list.
    repeat split; try assumption.
    cbn [fst]. unfold set_files, add_console, report_console. cbn [console].
    unfold statistics_block. fold (successful_latencies (results s)).
    change (successful_latencies (results s)) with ts.
    replace (is_empty ts) with false by (now destruct ts).
    rewrite Ha, Hb, Hc, Hd. cbn [value_of].
    now rewrite <- !app_assoc.
  - intros ts k Hlen. split; [ apply sorted_in_order | ].
    split; [ apply sorted_permutation | now apply median_even ].
Qed.

Lemma statistics_of_successes_witness :
  forallb well_formed (results (with_results five_successes)) = true
  /\ filter success (results (with_results five_successes)) <> []
  /\ exists t_min t_max t_mean t_median before after,
       py_min five_latencies = Ok t_min /\ py_max five_latencies = Ok t_max
       /\ mean five_latencies = Ok t_mean /\ median five_latencies = Ok t_median
       /\ snd (generate_report example_tester (example_env 200 "OK")
                 (with_results five_successes)) = Ok tt
       /\ console (fst (generate_report example_tester (example_env 200 "OK")
                          (with_results five_successes)))
          = (before
             ++ statistics_lines five_latencies t_min t_max t_mean t_median ++ after)%list.
Proof.
  split; [ reflexivity | split; [ discriminate | ] ].
  apply (proj1 (proj2 statistics_of_successes) example_tester (example_env 200 "OK")
           (with_results five_successes)); [ reflexivity | discriminate ].
Defined.

(** C4.  When the sitemap is fetched and its body is a sitemap document,
    [parse_sitemap] returns the [<loc>] text of every [<url>] element of the
    document, in document order, duplicates included, an entry without
    [<loc>] giving nothing; when every entry has a [<loc>] there are as many
    URLs as entries. *)
Theorem parse_sitemap_reads_every_entry (self : SitemapTester) (env : Env)
    (response : Response) (root : Element) (s : State) :
  sitemap_answer env = Ok response ->
  raise_for_status response = Ok tt ->
  content response = XML root ->
  sitemap_document root = true ->
  snd (parse_sitemap self env s) = Ok (spec_urls root)
  /\ collect_locs root = spec_urls root
  /\ (forallb has_loc (url_elements root) = true ->
      List.length (spec_urls root) = List.length (url_elements root)).
Proof.
  intros Ha Hs Hx Hdoc.
  assert (H : collect_locs root = spec_urls root).
  { unfold spec_urls. rewrite (url_elements_of_document root Hdoc).
    apply collect_locs_children. }
  split; [ | split; [ exact H | ] ].
  - rewrite (parse_sitemap_reads self env response root s Ha Hs Hx). cbn [snd].
    now rewrite H.
  - intros Hloc. unfold spec_urls. now apply locs_length.
Qed.

Lemma parse_sitemap_reads_every_entry_witness :
  sitemap_answer (example_env 200 "OK") = Ok (example_response 200 "OK" example_document)
  /\ raise_for_status (example_response 200 "OK" example_document) = Ok tt
  /\ content (example_response 200 "OK" example_document) = XML example_document
  /\ sitemap_document example_document = true
  /\ snd (parse_sitemap example_tester (example_env 200 "OK") initial)
     = Ok [Some "http://example.org/a"; Some "http://example.org/b";
           Some "http://example.org/a"].
Proof.
  do 4 (split; [ reflexivity | ]).
  apply (parse_sitemap_reads_every_entry example_tester (example_env 200 "OK")
           (example_response 200 "OK" example_document) example_document initial);
    reflexivity.
Defined.

(** The three ways in which the sitemap is not obtained. *)
Lemma sitemap_failure_is_caught (env : Env) :
  (exists e, sitemap_answer env = Raise e)
  \/ (exists response,
        sitemap_answer env = Ok response
        /\ (400 <= Requests.status_code response < 600)%Z)
  \/ (exists response msg,
        sitemap_answer env = Ok response /\ content response = NotXML msg) ->
  exists e, sitemap_error env = Some e.
Proof.
  unfold sitemap_error.
  intros [ (e & ->) | [ (response & -> & Hs) | (response & msg & -> & Hx) ] ].
  - now exists e.
  - unfold raise_for_status.
    set (c := Requests.status_code response) in *.
    destruct ((400 <=? c) && (c <? 500))%Z eqn:E4; [ now eexists | ].
    destruct ((500 <=? c) && (c <? 600))%Z eqn:E5; [ now eexists | ].
    exfalso. apply andb_false_iff in E4, E5.
    rewrite Z.leb_gt, Z.ltb_ge in E4, E5. lia.
  - destruct (raise_for_status response) as [ [] | e ]; [ | now exists e ].
    rewrite Hx. now eexists.
Qed.

Lemma stopped_run (self : SitemapTester) (env : Env) (lines : list line) (s : State) :
  (forall s0, parse_sitemap self env s0 = (add_console s0 lines, Ok [])) ->
  snd (run_test self env s) = Ok tt
  /\ requested (fst (run_test self env s)) = requested s
  /\ files (fst (run_test self env s)) = files s
  /\ results (fst (run_test self env s)) = results s.
Proof.
  intros H. rewrite (run_test_stops self env lines s H). now repeat split.
Qed.

(** C7, as stated: a sitemap answered with a status outside 2xx stops the
    run.  It fails: [raise_for_status] raises for 4xx and 5xx only; a
    sitemap answered with 300 is parsed, its pages are requested and the
    report is written. *)
Lemma sitemap_with_status_300_is_tested :
  let final := fst (run_test example_tester (example_env 300 "Multiple Choices") initial) in
  requested final
  = [Some "http://example.org/a"; Some "http://example.org/b"; Some "http://example.org/a"]
  /\ map filename (files final) = ["sitemap_test_results_20250101_120000.txt"].
Proof. vm_compute. split; reflexivity. Qed.

(** C7, amended.  When the sitemap is not obtained (the request raises, the
    status is 4xx or 5xx, or the body is not well-formed XML) the run
    stops: the error is printed, no page is requested, no result is
    collected and no file is written. *)
Theorem sitemap_failure_stops_the_run (self : SitemapTester) (env : Env) (s : State) :
  (exists e, sitemap_answer env = Raise e)
  \/ (exists response,
        sitemap_answer env = Ok response
        /\ (400 <= Requests.status_code response < 600)%Z)
  \/ (exists response msg,
        sitemap_answer env = Ok response /\ content response = NotXML msg) ->
  exists e,
    sitemap_error env = Some e
    /\ run_test self env s
       = (add_console s
            [ [Txt "开始测试网站地图中的页面..."]; [Txt (str_mul "=" 60)];
              [Txt ("正在获取网站地图: " ++ sitemap_url self)];
              [Txt ("解析网站地图失败: " ++ str e)];
              [Txt "没有找到可测试的URL"] ], Ok tt)
    /\ requested (fst (run_test self env s)) = requested s
    /\ results (fst (run_test self env s)) = results s
    /\ files (fst (run_test self env s)) = files s.
Proof.
  intros Hfail. destruct (sitemap_failure_is_caught env Hfail) as (e & He).
  exists e. split; [ exact He | ].
  pose proof (fun s0 => parse_sitemap_fails self env e s0 He) as Hparse.
  destruct (stopped_run self env _ s Hparse) as (_ & Hq & Hf & Hr).
  split; [ | now repeat split ].
  now rewrite (run_test_stops self env _ s Hparse).
Qed.

Lemma sitemap_failure_stops_the_run_witness :
  ((exists e, sitemap_answer (example_env 404 "Not Found") = Raise e)
   \/ (exists response,
         sitemap_answer (example_env 404 "Not Found") = Ok response
         /\ (400 <= Requests.status_code response < 600)%Z)
   \/ (exists response msg,
         sitemap_answer (example_env 404 "Not Found") = Ok response
         /\ content response = NotXML msg))
  /\ exists e,
       sitemap_error (example_env 404 "Not Found") = Some e
       /\ run_test example_tester (example_env 404 "Not Found") initial
          = (add_console initial
               [ [Txt "开始测试网站地图中的页面..."]; [Txt (str_mul "=" 60)];
                 [Txt ("正在获取网站地图: " ++ sitemap_url example_tester)];
                 [Txt ("解析网站地图失败: " ++ str e)];
                 [Txt "没有找到可测试的URL"] ], Ok tt)
       /\ requested (fst (run_test example_tester (example_env 404 "Not Found") initial)) = []
       /\ results (fst (run_test example_tester (example_env 404 "Not Found") initial)) = []
       /\ files (fst (run_test example_tester (example_env 404 "Not Found") initial)) = [].
Proof.
  assert (H : (exists e, sitemap_answer (example_env 404 "Not Found") = Raise e)
              \/ (exists response,
                    sitemap_answer (example_env 404 "Not Found") = Ok response
                    /\ (400 <= Requests.status_code response < 600)%Z)
              \/ (exists response msg,
                    sitemap_answer (example_env 404 "Not Found") = Ok response
                    /\ content response = NotXML msg)).
  { right; left. eexists. split; [ reflexivity | cbn; lia ]. }
  split; [ exact H | ].
  apply (sitemap_failure_stops_the_run example_tester (example_env 404 "Not Found") initial H).
Defined.

(** C9, as stated: a sitemap answered with a status outside 2xx gives the
    caller the same empty list as a failure.  It fails: answered with 305,
    the sitemap is read and its URLs are returned. *)
Lemma sitemap_with_status_305_is_read :
  snd (parse_sitemap example_tester (example_env 305 "Use Proxy") initial)
  = Ok [Some "http://example.org/a"; Some "http://example.org/b"; Some "http://example.org/a"].
Proof. vm_compute. reflexivity. Qed.

(** C9, amended.  [parse_sitemap] never raises: when the request raises,
    when the status is 4xx or 5xx, when the body is not well-formed XML and
    when the document has no [<url>] entry it returns the same empty list,
    and in each of these cases the run stops with no page requested and no
    file written. *)
Theorem empty_url_list_stops_the_run (self : SitemapTester) (env : Env) (s : State) :
  (exists e, sitemap_answer env = Raise e)
  \/ (exists response,
        sitemap_answer env = Ok response
        /\ (400 <= Requests.status_code response < 600)%Z)
  \/ (exists response msg,
        sitemap_answer env = Ok response /\ content response = NotXML msg)
  \/ (exists response root,
        sitemap_answer env = Ok response /\ raise_for_status response = Ok tt
        /\ content response = XML root /\ findall root url_tag = []) ->
  snd (parse_sitemap self env s) = Ok []
  /\ snd (run_test self env s) = Ok tt
  /\ requested (fst (run_test self env s)) = requested s
  /\ files (fst (run_test self env s)) = files s.
Proof.
  intros Hcases.
  assert (Hparse : exists lines,
             forall s0, parse_sitemap self env s0 = (add_console s0 lines, Ok [])).
  { destruct Hcases as [ H | [ H | [ H | (response & root & Ha & Hs & Hx & Hnone) ] ] ].
    - destruct (sitemap_failure_is_caught env (or_introl H)) as (e & He).
      eexists. intros s0. exact (parse_sitemap_fails self env e s0 He).
    - destruct (sitemap_failure_is_caught env (or_intror (or_introl H))) as (e & He).
      eexists. intros s0. exact (parse_sitemap_fails self env e s0 He).
    - destruct (sitemap_failure_is_caught env (or_intror (or_intror H))) as (e & He).
      eexists. intros s0. exact (parse_sitemap_fails self env e s0 He).
    - assert (Hlocs : collect_locs root = []).
      { rewrite collect_locs_children, Hnone. reflexivity. }
      eexists. intros s0.
      rewrite (parse_sitemap_reads self env response root s0 Ha Hs Hx), Hlocs.
      reflexivity. }
  destruct Hparse as (lines & Hparse).
  split; [ now rewrite Hparse | ].
  destruct (stopped_run self env lines s Hparse) as (Hok & Hq & Hf & _).
  now repeat split.
Qed.

Lemma empty_url_list_stops_the_run_witness :
  ((exists e, sitemap_answer empty_sitemap_env = Raise e)
   \/ (exists response,
         sitemap_answer empty_sitemap_env = Ok response
         /\ (400 <= Requests.status_code response < 600)%Z)
   \/ (exists response msg,
         sitemap_answer empty_sitemap_env = Ok response /\ content response = NotXML msg)
   \/ (exists response root,
         sitemap_answer empty_sitemap_env = Ok response /\ raise_for_status response = Ok tt
         /\ content response = XML root /\ findall root url_tag = []))
  /\ snd (parse_sitemap example_tester empty_sitemap_env initial) = Ok []
  /\ snd (run_test example_tester empty_sitemap_env initial) = Ok tt
  /\ requested (fst (run_test example_tester empty_sitemap_env initial)) = []
  /\ files (fst (run_test example_tester empty_sitemap_env initial)) = [].
Proof.
  assert (H : (exists e, sitemap_answer empty_sitemap_env = Raise e)
              \/ (exists response,
                    sitemap_answer empty_sitemap_env = Ok response
                    /\ (400 <= Requests.status_code response < 600)%Z)
              \/ (exists response msg,
                    sitemap_answer empty_sitemap_env = Ok response
                    /\ content response = NotXML msg)
              \/ (exists response root,
                    sitemap_answer empty_sitemap_env = Ok response
                    /\ raise_for_status response = Ok tt
                    /\ content response = XML root /\ findall root url_tag = [])).
  { right; right; right. exists (example_response 200 "OK" empty_document), empty_document.
    repeat split. }
  split; [ exact H | ].
  apply (empty_url_list_stops_the_run example_tester empty_sitemap_env initial H).
Defined.

Lemma probes_of_numbered (env : Env) (urls : list Text) (i : nat) :
  Forall2
    (fun call r =>
       test_single_url (page_exchange env (fst call) (snd call)) (snd call) = Ok r)
    (numbered i urls) (map (fun '(j, u) => probe env j u) (numbered i urls)).
Proof.
  revert i. induction urls as [ | u rest IH ]; intros i; cbn [numbered map]; constructor.
  - cbn [fst snd]. apply probe_is_result.
  - apply IH.
Qed.

Lemma probes_urls (env : Env) (urls : list Text) (i : nat) :
  map url (map (fun '(j, u) => probe env j u) (numbered i urls)) = urls.
Proof.
  revert i. induction urls as [ | u rest IH ]; intros i; cbn [numbered map]; [ reflexivity | ].
  now rewrite probe_url, IH.
Qed.

(** C1.  For every list of URLs, one call of [test_single_url] is made per
    element of the list, and the pool of [run_test] (with at least one
    worker) returns normally having appended to [self.results] the return
    values of these calls, each exactly once, in some order: there are as
    many results as URLs and their URLs are the submitted ones.  The same
    holds for a whole run on a sitemap that lists these URLs. *)
Theorem pool_one_result_per_url (self : SitemapTester) (env : Env) (urls : list Text)
    (s : State) :
  (0 < max_workers self)%Z ->
  exists expected : list Result,
    Forall2
      (fun call r =>
         test_single_url (page_exchange env (fst call) (snd call)) (snd call) = Ok r)
      (numbered 0 urls) expected
    /\ (exists new : list Result,
          snd (run_test_pool self env urls s) = Ok tt
          /\ results (fst (run_test_pool self env urls s)) = (results s ++ new)%list
          /\ requested (fst (run_test_pool self env urls s)) = (requested s ++ urls)%list
          /\ Permutation new expected
          /\ List.length new = List.length urls
          /\ Permutation (map url new) urls)
    /\ (forall response root,
          sitemap_answer env = Ok response ->
          raise_for_status response = Ok tt ->
          content response = XML root ->
          collect_locs root = urls ->
          forallb well_formed (results s) = true ->
          exists final new,
            run_test self env s = (final, Ok tt)
            /\ results final = (results s ++ new)%list
            /\ Permutation new expected
            /\ List.length new = List.length urls).
Proof.
  intros Hw.
  set (d := futures_of env 0 urls).
  set (order := as_completed (completes_next env) 0 (List.length (map fst d)) (map fst d)).
  set (expected := map (fun '(j, u) => probe env j u) (numbered 0 urls)).
  assert (Hperm : Permutation (map result_of order) expected).
  { unfold expected. rewrite <- futures_of_fst. fold d.
    rewrite <- (map_map fst result_of).
    apply Permutation_map, as_completed_permutation. }
  assert (Hexp : List.length expected = List.length urls).
  { unfold expected. rewrite length_map. generalize 0%nat.
    clear. induction urls as [ | u rest IH ]; intros i; cbn; [ reflexivity | now rewrite IH ]. }
  assert (Hd : List.length (map fst d) = List.length urls).
  { unfold d. rewrite length_map. rewrite <- (futures_of_snd env urls 0) at 2.
    now rewrite length_map. }
  exists expected. split; [ apply probes_of_numbered | split ].
  - exists (map result_of order).
    rewrite (run_test_pool_runs self env urls s Hw). fold d. fold order. cbn [fst snd].
    rewrite after_loop_results.
    destruct (after_loop_keeps self (len urls) d (enumerate 1 order)
                (set_requested s (requested s ++ urls))) as [Hq _].
    rewrite Hq. cbn [set_requested results requested].
    rewrite <- (map_map snd result_of), enumerate_snd.
    repeat split.
    + exact Hperm.
    + now rewrite (Permutation_length Hperm).
    + rewrite (Permutation_map url Hperm). unfold expected. now rewrite probes_urls.
  - intros response root Ha Hs Hx Hurls Hwf.
    pose proof (fun s0 => parse_sitemap_reads self env response root s0 Ha Hs Hx) as Hparse.
    rewrite Hurls in Hparse.
    assert (Hcase : urls = [] \/ urls <> [])
      by (destruct urls; [ left | right ]; congruence).
    destruct Hcase as [Hnil | Hne].
    + exists (add_console s
                ([ [Txt "开始测试网站地图中的页面..."]; [Txt (str_mul "=" 60)] ]
                 ++ [ [Txt ("正在获取网站地图: " ++ sitemap_url self)];
                      [Txt ("成功解析 " ++ str_int (len (@nil Text)) ++ " 个URL")] ]
                 ++ [ [Txt "没有找到可测试的URL"] ])), [].
      split; [ apply (run_test_stops self env _ s); now rewrite <- Hnil | ].
      cbn [add_console results]. rewrite app_nil_r.
      unfold expected. rewrite Hnil. now repeat split.
    + destruct (run_test_reports self env _ urls s Hparse Hne Hw Hwf)
        as (final & Hrun & Hres & _).
      rewrite <- Hd in Hres. fold d in Hres. fold order in Hres.
      exists final, (map result_of order).
      repeat split; [ exact Hrun | exact Hres | exact Hperm | ].
      now rewrite (Permutation_length Hperm).
Qed.

Lemma pool_one_result_per_url_witness :
  (0 < max_workers example_tester)%Z
  /\ exists new : list Result,
       results (fst (run_test_pool example_tester (example_env 200 "OK")
                       [Some "http://example.org/a"; Some "http://example.org/b"] initial))
       = new
       /\ List.length new = 2%nat
       /\ Permutation (map url new) [Some "http://example.org/a"; Some "http://example.org/b"].
Proof.
  split; [ reflexivity | ].
  destruct (pool_one_result_per_url example_tester (example_env 200 "OK")
              [Some "http://example.org/a"; Some "http://example.org/b"] initial eq_refl)
    as (expected & _ & (new & _ & Hres & _ & _ & Hlen & Hurls) & _).
  exists new. split; [ exact Hres | split; [ exact Hlen | exact Hurls ] ].
Defined.

(** C2.  With [max_workers = 1] and two pages that each answer after a
    tenth of a second, both calls are submitted at time 0, before any has
    ended; the worker begins the second request at the very moment the
    first one ends, not a second later.  The second of sleep after each
    result is spent by the main thread only: the run lasts 2.1 s while the
    two requests follow each other without any pause. *)
Theorem one_worker_requests_are_not_spaced :
  exists first second,
    worker 0 0 two_quick_pages = [first; second]
    /\ ended first == 1 # 10
    /\ submitted second == 0
    /\ began second == ended first
    /\ ~ (ended first + 1 <= began second)
    /\ ~ (ended first + 1 <= submitted second)
    /\ gaps (worker 0 0 two_quick_pages) = [began second - ended first]
    /\ run_time sequential_tester 0 two_quick_pages == 21 # 10.
Proof.
  eexists. eexists. split; [ reflexivity | ].
  repeat split; try reflexivity.
  - cbn. intros H. apply Qle_bool_iff in H. discriminate.
  - cbn. intros H. apply Qle_bool_iff in H. discriminate.
Qed.

End Claims.

(** * Further properties *)

Section ProbeResult.

(** X1.  Every result of [test_single_url] is of one of two shapes: a
    success with a response time, a status and no error, or a failure with
    an error and neither response time nor status; it is a success exactly
    when [session.get] returned a response. *)
Theorem result_is_success_or_failure (x : Exchange) (u : Text) (r : Result) :
  test_single_url x u = Ok r ->
  url r = u
  /\ (success r = true <-> exists response, answer x = Ok response)
  /\ (success r = true ->
      response_time r <> None /\ status_code r <> None /\ error r = None)
  /\ (success r = false ->
      response_time r = None /\ status_code r = None /\ error r <> None).
Proof.
  intros Hr. destruct (answer x) as [response | e] eqn:Ha.
  - rewrite (test_single_url_ok x u response Ha) in Hr. injection Hr as <-. cbn.
    repeat split; try discriminate; eauto.
  - assert (Hshape : exists msg, r = mkResult u None None false (Some msg)).
    { destruct (is_Timeout e) eqn:Ht.
      + rewrite (test_single_url_timeout x u e Ha Ht) in Hr. injection Hr as <-. eauto.
      + rewrite (test_single_url_error x u e Ha Ht) in Hr. injection Hr as <-. eauto. }
    destruct Hshape as (msg & ->). cbn.
    repeat split; try discriminate. intros (response & H). discriminate.
Qed.

Lemma result_is_success_or_failure_witness :
  test_single_url timed_out (Some "http://example.org/a")
  = Ok (mkResult (Some "http://example.org/a") None None false (Some "请求超时"))
  /\ (success (mkResult (Some "http://example.org/a") None None false (Some "请求超时")) = true
      <-> exists response, answer timed_out = Ok response).
Proof.
  split; [ reflexivity | ].
  apply (result_is_success_or_failure timed_out (Some "http://example.org/a")).
  reflexivity.
Defined.

End ProbeResult.

Section SitemapReading.

Lemma find_first (u : Element) (before after : list Element) (loc : Element) :
  children u = (before ++ loc :: after)%list ->
  tag loc = loc_tag ->
  forallb (fun c => negb (String.eqb (tag c) loc_tag)) before = true ->
  find u loc_tag = Some loc.
Proof.
  intros Hc Hloc Hbefore. unfold find, findall. rewrite Hc. clear Hc.
  induction before as [ | c before IH ]; cbn [app filter].
  - rewrite Hloc, String.eqb_refl. reflexivity.
  - cbn [forallb] in Hbefore. apply andb_prop in Hbefore. destruct Hbefore as [Hc Hrest].
    destruct (String.eqb (tag c) loc_tag); [ discriminate | now apply IH ].
Qed.

Lemma loc_of_short (u : Element) : (List.length (loc_of u) <= 1)%nat.
Proof. unfold loc_of. destruct (find u loc_tag); cbn; lia. Qed.

Lemma locs_bounded (us : list Element) :
  (List.length (flat_map loc_of us) <= List.length us)%nat.
Proof.
  induction us as [ | u us IH ]; cbn [flat_map List.length]; [ lia | ].
  rewrite length_app. pose proof (loc_of_short u). lia.
Qed.

(** X2.  [parse_sitemap] takes at most one URL from each [<url>] child of
    the root: the text of its first [<loc>] child, whatever follows it. *)
Theorem one_url_per_entry_at_most (root : Element) :
  (List.length (collect_locs root) <= List.length (findall root url_tag))%nat
  /\ (forall tg tx before after entry loc others1 others2,
        root = Elem tg tx (before ++ entry :: after) ->
        tag entry = url_tag ->
        children entry = (others1 ++ loc :: others2)%list ->
        tag loc = loc_tag ->
        forallb (fun c => negb (String.eqb (tag c) loc_tag)) others1 = true ->
        collect_locs root
        = (collect_locs (Elem tg tx before) ++ [text loc]
           ++ collect_locs (Elem tg tx after))%list).
Proof.
  split.
  - rewrite collect_locs_children. apply locs_bounded.
  - intros tg tx before after entry loc others1 others2 -> Hentry Hc Hloc Hothers.
    rewrite !collect_locs_children. unfold findall. cbn [children].
    rewrite filter_app. cbn [filter]. rewrite Hentry, String.eqb_refl.
    rewrite flat_map_app. cbn [flat_map]. f_equal.
    unfold loc_of at 1. now rewrite (find_first entry others1 others2 loc Hc Hloc Hothers).
Qed.

Lemma one_url_per_entry_at_most_witness :
  tag entry_with_two_locs = url_tag
  /\ collect_locs (Elem (qname sitemap_ns "urlset") None
                     ([example_page "http://example.org/a"] ++ entry_with_two_locs :: []))
     = [Some "http://example.org/a"; Some "http://example.org/first"].
Proof.
  split; [ reflexivity | ].
  apply (proj2 (one_url_per_entry_at_most _) (qname sitemap_ns "urlset") None
           [example_page "http://example.org/a"] [] entry_with_two_locs
           (Elem loc_tag (Some "http://example.org/first") [])
           [Elem (qname sitemap_ns "lastmod") (Some "2025-01-01") []]
           [Elem loc_tag (Some "http://example.org/second") []]);
    reflexivity.
Defined.

(** X3.  The URL list of a document is the concatenation of the URL lists
    of its parts, and a child of the root that is not a [<url>] of the
    sitemap namespace contributes nothing, whatever it contains. *)
Theorem collect_locs_of_parts (tg : string) (tx : Text) (cs1 cs2 : list Element) :
  collect_locs (Elem tg tx (cs1 ++ cs2))
  = (collect_locs (Elem tg tx cs1) ++ collect_locs (Elem tg tx cs2))%list
  /\ (forall c,
        String.eqb (tag c) url_tag = false ->
        collect_locs (Elem tg tx (cs1 ++ c :: cs2)) = collect_locs (Elem tg tx (cs1 ++ cs2))).
Proof.
  split.
  - rewrite !collect_locs_children. unfold findall. cbn [children].
    now rewrite filter_app, flat_map_app.
  - intros c Hc. rewrite !collect_locs_children. unfold findall. cbn [children].
    rewrite !filter_app. cbn [filter]. now rewrite Hc.
Qed.

Lemma collect_locs_of_parts_witness :
  String.eqb (tag (Elem "sitemap" None [example_page "http://example.org/x"])) url_tag = false
  /\ collect_locs
       (Elem (qname sitemap_ns "urlset") None
          ([example_page "http://example.org/a"]
           ++ Elem "sitemap" None [example_page "http://example.org/x"]
           :: [example_page "http://example.org/b"]))
     = [Some "http://example.org/a"; Some "http://example.org/b"].
Proof.
  split; [ reflexivity | ].
  rewrite (proj2 (collect_locs_of_parts (qname sitemap_ns "urlset") None
                    [example_page "http://example.org/a"]
                    [example_page "http://example.org/b"])
             (Elem "sitemap" None [example_page "http://example.org/x"]) eq_refl).
  reflexivity.
Defined.

(** X4.  [parse_sitemap] never raises and touches nothing but the console,
    on which it prints exactly two lines.  When an exception is caught the
    second line is the error and the list returned is empty; otherwise the
    sitemap was obtained, the second line is the number of URLs parsed and
    the list returned is the URL list of the document. *)
Theorem parse_sitemap_only_prints (self : SitemapTester) (env : Env) (s : State) :
  (forall e,
     sitemap_error env = Some e ->
     parse_sitemap self env s
     = (add_console s [ [Txt ("正在获取网站地图: " ++ sitemap_url self)];
                        [Txt ("解析网站地图失败: " ++ str e)] ], Ok []))
  /\ (sitemap_error env = None ->
      exists response root,
        sitemap_answer env = Ok response
        /\ content response = XML root
        /\ parse_sitemap self env s
           = (add_console s
                [ [Txt ("正在获取网站地图: " ++ sitemap_url self)];
                  [Txt ("成功解析 " ++ str_int (len (collect_locs root)) ++ " 个URL")] ],
              Ok (collect_locs root))).
Proof.
  split.
  - intros e He. now apply parse_sitemap_fails.
  - unfold sitemap_error. intros He.
    destruct (sitemap_answer env) as [response | e] eqn:Ha; [ | discriminate ].
    destruct (raise_for_status response) as [ [] | e ] eqn:Hs; [ | discriminate ].
    destruct (content response) as [msg | root] eqn:Hx; [ discriminate | ].
    exists response, root. split; [ reflexivity | split; [ exact Hx | ] ].
    now apply (parse_sitemap_reads self env response root).
Qed.

Lemma parse_sitemap_only_prints_witness :
  sitemap_error (example_env 200 "OK") = None
  /\ exists response root,
       sitemap_answer (example_env 200 "OK") = Ok response
       /\ content response = XML root
       /\ parse_sitemap example_tester (example_env 200 "OK") initial
          = (add_console initial
               [ [Txt ("正在获取网站地图: " ++ sitemap_url example_tester)];
                 [Txt ("成功解析 " ++ str_int (len (collect_locs root)) ++ " 个URL")] ],
             Ok (collect_locs root)).
Proof.
  split; [ reflexivity | ].
  exact (proj2 (parse_sitemap_only_prints example_tester (example_env 200 "OK") initial)
           eq_refl).
Defined.

End SitemapReading.

Section Runs.

Local Open Scope Q_scope.

Lemma parse_sitemap_returns (self : SitemapTester) (env : Env) :
  exists lines urls,
    forall s, parse_sitemap self env s = (add_console s lines, Ok urls).
Proof.
  destruct (sitemap_error env) as [e | ] eqn:He.
  - eexists. exists []. intros s. exact (parse_sitemap_fails self env e s He).
  - unfold sitemap_error in He.
    destruct (sitemap_answer env) as [response | e] eqn:Ha; [ | discriminate ].
    destruct (raise_for_status response) as [ [] | e ] eqn:Hs; [ | discriminate ].
    destruct (content response) as [msg | root] eqn:Hx; [ discriminate | ].
    eexists. exists (collect_locs root). intros s.
    exact (parse_sitemap_reads self env response root s Ha Hs Hx).
Qed.

(** X5.  With at least one worker, [run_test] never raises, whatever the
    network does: it returns normally when the sitemap cannot be read, when
    it lists no URL and when every probe fails.  So [main], whose tester
    has one worker, never reaches its last-resort handler on a fresh
    tester, and returns normally in every case. *)
Theorem run_test_never_raises (self : SitemapTester) (env : Env) (s : State) :
  (0 < max_workers self)%Z ->
  forallb well_formed (results s) = true ->
  snd (run_test self env s) = Ok tt
  /\ main env initial = run_test main_tester env initial
  /\ snd (main env s) = Ok tt.
Proof.
  intros Hw Hwf.
  assert (Hrun : forall self' s',
             (0 < max_workers self')%Z -> forallb well_formed (results s') = true ->
             snd (run_test self' env s') = Ok tt).
  { intros self' s' Hw' Hwf'.
    destruct (parse_sitemap_returns self' env) as (lines & urls & Hparse).
    destruct urls as [ | u rest ].
    - now rewrite (run_test_stops self' env lines s' Hparse).
    - destruct (run_test_reports self' env lines (u :: rest) s' Hparse) as (final & -> & _);
        [ discriminate | exact Hw' | exact Hwf' | reflexivity ]. }
  split; [ now apply Hrun | split ].
  - unfold main, try_except.
    pose proof (Hrun main_tester initial eq_refl eq_refl) as H.
    destruct (run_test main_tester env initial) as [final [ [] | e ]]; [ reflexivity | ].
    discriminate.
  - unfold main, try_except.
    destruct (run_test main_tester env s) as [final [ [] | e ]]; reflexivity.
Qed.

Lemma run_test_never_raises_witness :
  (0 < max_workers example_tester)%Z
  /\ forallb well_formed (results initial) = true
  /\ snd (run_test example_tester (example_env 503 "Service Unavailable") initial) = Ok tt.
Proof.
  split; [ reflexivity | split; [ reflexivity | ] ].
  apply (run_test_never_raises example_tester (example_env 503 "Service Unavailable") initial);
    reflexivity.
Defined.

(** X6.  A tester configured without any worker fails only once the
    sitemap has been read and lists a URL: [run_test] then raises the
    [ValueError] of the pool, having requested no page, collected no result
    and written no file. *)
Theorem no_worker_no_probe (self : SitemapTester) (env : Env) (response : Response)
    (root : Element) (s : State) :
  (max_workers self <= 0)%Z ->
  sitemap_answer env = Ok response ->
  raise_for_status response = Ok tt ->
  content response = XML root ->
  collect_locs root <> [] ->
  snd (run_test self env s) = Raise (mkExc ValueError "max_workers must be greater than 0")
  /\ requested (fst (run_test self env s)) = requested s
  /\ results (fst (run_test self env s)) = results s
  /\ files (fst (run_test self env s)) = files s.
Proof.
  intros Hw Ha Hs Hx Hne.
  assert (Hrun : exists final,
             run_test self env s
             = (final, Raise (mkExc ValueError "max_workers must be greater than 0"))
             /\ requested final = requested s /\ results final = results s
             /\ files final = files s).
  { unfold run_test. do 2 step.
    rewrite (bind_runs _ _ _ _ _ (parse_sitemap_reads self env response root _ Ha Hs Hx)).
    replace (is_empty (collect_locs root)) with false by (now destruct (collect_locs root)).
    do 2 step. cbv zeta.
    match goal with
    | |- exists final, bind (run_test_pool self env ?urls) _ ?st = _ /\ _ =>
        assert (Hpool : run_test_pool self env urls st
                        = (st, Raise (mkExc ValueError "max_workers must be greater than 0")))
    end.
    { unfold run_test_pool.
      replace (max_workers self <=? 0)%Z with true by (symmetry; now apply Z.leb_le).
      reflexivity. }
    rewrite (bind_raises _ _ _ _ _ Hpool).
    eexists. split; [ reflexivity | now repeat split ]. }
  destruct Hrun as (final & -> & Hq & Hr & Hf). now repeat split.
Qed.

Lemma no_worker_no_probe_witness :
  (max_workers idle_tester <= 0)%Z
  /\ collect_locs example_document <> []
  /\ snd (run_test idle_tester (example_env 200 "OK") initial)
     = Raise (mkExc ValueError "max_workers must be greater than 0")
  /\ requested (fst (run_test idle_tester (example_env 200 "OK") initial)) = [].
Proof.
  split; [ cbn; lia | split; [ discriminate | ] ].
  destruct (no_worker_no_probe idle_tester (example_env 200 "OK")
              (example_response 200 "OK" example_document) example_document initial)
    as (Hr & Hq & _); [ cbn; lia | reflexivity | reflexivity | reflexivity | discriminate | ].
  split; [ exact Hr | exact Hq ].
Defined.

End Runs.

Section Accounting.

Local Open Scope Q_scope.


Lemma as_completed_length (choose : nat -> nat) (fs : list Future) (step : nat) :
  List.length (as_completed choose step (List.length fs) fs) = List.length fs.
Proof. apply Permutation_length, as_completed_permutation. Qed.

Lemma futures_length (env : Env) (urls : list Text) (i : nat) :
  List.length (map fst (futures_of env i urls)) = List.length urls.
Proof.
  rewrite length_map. rewrite <- (futures_of_snd env urls i) at 2. now rewrite length_map.
Qed.

(** A run on a sitemap that lists at least one URL, in full. *)
Lemma run_test_accounts (self : SitemapTester) (env : Env) (response : Response)
    (root : Element) (s : State) :
  (0 < max_workers self)%Z ->
  sitemap_answer env = Ok response ->
  raise_for_status response = Ok tt ->
  content response = XML root ->
  collect_locs root <> [] ->
  forallb well_formed (results s) = true ->
  exists final new,
    run_test self env s = (final, Ok tt)
    /\ results final = (results s ++ new)%list
    /\ List.length new = List.length (collect_locs root)
    /\ forallb well_formed (results final) = true
    /\ requested final = (requested s ++ collect_locs root)%list
    /\ files final = report_file self env (results final) :: files s.
Proof.
  intros Hw Ha Hs Hx Hne Hwf.
  pose proof (fun s0 => parse_sitemap_reads self env response root s0 Ha Hs Hx) as Hparse.
  destruct (run_test_reports self env _ (collect_locs root) s Hparse Hne Hw Hwf)
    as (final & Hrun & Hres & Hq & Hf).
  set (order := as_completed (completes_next env) 0 (List.length (collect_locs root))
                  (map fst (futures_of env 0 (collect_locs root)))) in *.
  assert (Hperm : Permutation order (map fst (futures_of env 0 (collect_locs root)))).
  { unfold order. rewrite <- (futures_length env (collect_locs root) 0).
    apply as_completed_permutation. }
  exists final, (map result_of order). repeat split; try assumption.
  - rewrite length_map, (Permutation_length Hperm). apply futures_length.
  - rewrite Hres, forallb_app, Hwf. cbn [andb].
    now apply (order_well_formed env (collect_locs root)).
Qed.



(** X8.  [self.results] is never cleared: a second run of the same tester
    adds its results to those of the first, and its report lists the
    results of both runs. *)
Theorem second_run_reports_both (self : SitemapTester) (env1 env2 : Env)
    (response1 response2 : Response) (root1 root2 : Element) (s : State) :
  (0 < max_workers self)%Z ->
  sitemap_answer env1 = Ok response1 -> raise_for_status response1 = Ok tt ->
  content response1 = XML root1 -> collect_locs root1 <> [] ->
  sitemap_answer env2 = Ok response2 -> raise_for_status response2 = Ok tt ->
  content response2 = XML root2 -> collect_locs root2 <> [] ->
  forallb well_formed (results s) = true ->
  exists first second new1 new2,
    run_test self env1 s = (first, Ok tt)
    /\ run_test self env2 first = (second, Ok tt)
    /\ results second = (results s ++ new1 ++ new2)%list
    /\ List.length new1 = List.length (collect_locs root1)
    /\ List.length new2 = List.length (collect_locs root2)
    /\ files second
       = report_file self env2 (results s ++ new1 ++ new2)
         :: report_file self env1 (results s ++ new1) :: files s.
Proof.
  intros Hw Ha1 Hs1 Hx1 Hne1 Ha2 Hs2 Hx2 Hne2 Hwf.
  destruct (run_test_accounts self env1 response1 root1 s Hw Ha1 Hs1 Hx1 Hne1 Hwf)
    as (first & new1 & Hrun1 & Hres1 & Hlen1 & Hwf1 & _ & Hf1).
  destruct (run_test_accounts self env2 response2 root2 first Hw Ha2 Hs2 Hx2 Hne2 Hwf1)
    as (second & new2 & Hrun2 & Hres2 & Hlen2 & _ & _ & Hf2).
  exists first, second, new1, new2.
  repeat split; try assumption.
  - now rewrite Hres2, Hres1, <- app_assoc.
  - rewrite Hf2, Hf1, Hres2, Hres1, <- app_assoc. reflexivity.
Qed.

Lemma second_run_reports_both_witness :
  (0 < max_workers example_tester)%Z
  /\ collect_locs example_document <> []
  /\ exists first second new1 new2,
       run_test example_tester (example_env 200 "OK") initial = (first, Ok tt)
       /\ run_test example_tester (example_env 200 "OK") first = (second, Ok tt)
       /\ results second = (results initial ++ new1 ++ new2)%list
       /\ List.length new1 = List.length (collect_locs example_document)
       /\ List.length new2 = List.length (collect_locs example_document).
Proof.
  split; [ reflexivity | split; [ discriminate | ] ].
  destruct (second_run_reports_both example_tester (example_env 200 "OK")
              (example_env 200 "OK") (example_response 200 "OK" example_document)
              (example_response 200 "OK" example_document) example_document
              example_document initial
              eq_refl eq_refl eq_refl eq_refl ltac:(discriminate)
              eq_refl eq_refl eq_refl ltac:(discriminate) eq_refl)
    as (first & second & new1 & new2 & H1 & H2 & H3 & H4 & H5 & _).
  exists first, second, new1, new2. repeat split; assumption.
Defined.

Lemma after_loop_no_sleep (self : SitemapTester) (n_urls : Z) (d : list (Future * Text))
    (items : list (Z * Future)) (s : State) :
  max_workers self <> 1%Z ->
  slept (after_loop self n_urls d items s) = slept s.
Proof.
  intros Hw. revert s. induction items as [ | [i f] rest IH ]; intros s; cbn [after_loop].
  - reflexivity.
  - rewrite IH. unfold after_one, pause. cbn [slept].
    now replace (max_workers self =? 1)%Z with false by (symmetry; now apply Z.eqb_neq).
Qed.

Lemma enumerate_length {A : Type} (l : list A) (i : Z) :
  List.length (enumerate i l) = List.length l.
Proof. rewrite <- (enumerate_snd l i) at 2. now rewrite length_map. Qed.

(** X9.  The pool sleeps one second for each collected result when
    [max_workers] is 1, N seconds in all, and never sleeps with any other
    number of workers. *)
Theorem pool_sleeps_once_per_result (self : SitemapTester) (env : Env) (urls : list Text)
    (s : State) :
  (0 < max_workers self)%Z ->
  (max_workers self = 1%Z ->
   slept (fst (run_test_pool self env urls s)) == slept s + of_nat (List.length urls))
  /\ (max_workers self <> 1%Z ->
      slept (fst (run_test_pool self env urls s)) = slept s).
Proof.
  intros Hw. rewrite (run_test_pool_runs self env urls s Hw). cbn [fst]. split; intros H1.
  - rewrite (after_loop_slept self _ _ _ _ H1). cbn [set_requested slept].
    now rewrite enumerate_length, as_completed_length, futures_length.
  - now rewrite (after_loop_no_sleep self _ _ _ _ H1).
Qed.

Lemma pool_sleeps_once_per_result_witness :
  (0 < max_workers sequential_tester)%Z
  /\ max_workers sequential_tester = 1%Z
  /\ slept (fst (run_test_pool sequential_tester (example_env 200 "OK")
                   [Some "http://example.org/a"; Some "http://example.org/b"] initial))
     == slept initial
        + of_nat (List.length [Some "http://example.org/a"; Some "http://example.org/b"]).
Proof.
  split; [ reflexivity | split; [ reflexivity | ] ].
  exact (proj1 (pool_sleeps_once_per_result sequential_tester (example_env 200 "OK")
                  [Some "http://example.org/a"; Some "http://example.org/b"] initial
                  eq_refl) eq_refl).
Defined.

End Accounting.

Section ReportFacts.

Local Open Scope Q_scope.

(** X11.  On results that are not empty [generate_report] returns
    normally, leaves [self.results] as it is and writes exactly one file,
    [sitemap_test_results_<stamp>.txt]: four header lines, then one line
    per result, in the order of the results. *)
Theorem generate_report_writes_every_result (self : SitemapTester) (env : Env) (s : State) :
  results s <> [] ->
  forallb well_formed (results s) = true ->
  exists header,
    List.length header = 4%nat
    /\ generate_report self env s
       = (mkState (console s ++ report_console env (results s)) (results s) (requested s)
            (slept s)
            (mkFile ("sitemap_test_results_" ++ stamp_name env ++ ".txt")
               (header ++ map file_line (results s)) :: files s), Ok tt).
Proof.
  intros Hne Hwf. rewrite (generate_report_runs self env s Hne Hwf).
  eexists. split; [ | reflexivity ]. reflexivity.
Qed.

Lemma generate_report_writes_every_result_witness :
  results (with_results five_successes) <> []
  /\ forallb well_formed (results (with_results five_successes)) = true
  /\ exists header,
       List.length header = 4%nat
       /\ generate_report example_tester (example_env 200 "OK") (with_results five_successes)
          = (mkState
               (console (with_results five_successes)
                ++ report_console (example_env 200 "OK")
                     (results (with_results five_successes)))
               (results (with_results five_successes))
               (requested (with_results five_successes))
               (slept (with_results five_successes))
               (mkFile
                  ("sitemap_test_results_" ++ stamp_name (example_env 200 "OK") ++ ".txt")
                  (header ++ map file_line (results (with_results five_successes)))
                :: files (with_results five_successes)), Ok tt).
Proof.
  split; [ discriminate | split; [ reflexivity | ] ].
  exact (generate_report_writes_every_result example_tester (example_env 200 "OK")
           (with_results five_successes) ltac:(discriminate) eq_refl).
Defined.

Lemma filter_twice {A : Type} (f : A -> bool) (l : list A) :
  filter f (filter f l) = filter f l.
Proof.
  induction l as [ | x l IH ]; cbn [filter]; [ reflexivity | ].
  destruct (f x) eqn:E; cbn [filter]; [ rewrite E; now f_equal | exact IH ].
Qed.

Lemma statistics_block_of_successes (rs : list Result) :
  statistics_block (filter success rs) = statistics_block rs.
Proof. unfold statistics_block, successful_latencies. now rewrite filter_twice. Qed.

(** X12.  A failed result is listed, not measured: the statistics that
    [generate_report] prints are those of the successful results alone, as
    if the failed pages had not been probed, and the failed results are
    listed after them with their URL and error, in the order in which they
    were collected. *)
Theorem failures_are_listed_not_measured (self : SitemapTester) (env : Env) (s : State) :
  results s <> [] ->
  forallb well_formed (results s) = true ->
  let rs := results s in
  let failed := filter (fun r => negb (success r)) rs in
  console (fst (generate_report self env s))
  = (console s ++ summary_head rs
     ++ statistics_block (filter success rs)
     ++ (if is_empty failed then []
         else [Txt (nl ++ "失败页面详情:")]
              :: map (fun r => [Txt ("  " ++ pystr (url r) ++ " - " ++ pystr (error r))])
                   failed)
     ++ [ [Txt (nl ++ "详细结果已保存到: " ++ report_name env)] ])%list.
Proof.
  intros Hne Hwf rs failed. rewrite (generate_report_runs self env s Hne Hwf).
  cbn [fst set_files add_console console]. rewrite statistics_block_of_successes.
  reflexivity.
Qed.

Lemma failures_are_listed_not_measured_witness :
  results (with_results mixed_results) <> []
  /\ forallb well_formed (results (with_results mixed_results)) = true
  /\ filter (fun r => negb (success r)) (results (with_results mixed_results))
     = [mkResult (Some "http://example.org/b") None None false (Some "请求超时")]
  /\ console (fst (generate_report example_tester (example_env 200 "OK")
                     (with_results mixed_results)))
     = (console (with_results mixed_results)
        ++ summary_head (results (with_results mixed_results))
        ++ statistics_block (filter success (results (with_results mixed_results)))
        ++ (if is_empty (filter (fun r => negb (success r))
                           (results (with_results mixed_results)))
            then []
            else [Txt (nl ++ "失败页面详情:")]
                 :: map (fun r => [Txt ("  " ++ pystr (url r) ++ " - " ++ pystr (error r))])
                      (filter (fun r => negb (success r))
                         (results (with_results mixed_results))))
        ++ [ [Txt (nl ++ "详细结果已保存到: "
                   ++ report_name (example_env 200 "OK"))] ])%list.
Proof.
  split; [ discriminate | split; [ reflexivity | split; [ reflexivity | ] ] ].
  exact (failures_are_listed_not_measured example_tester (example_env 200 "OK")
           (with_results mixed_results) ltac:(discriminate) eq_refl).
Defined.

End ReportFacts.

Section StatisticsFacts.

Local Open Scope Q_scope.

Lemma fold_sum (l : list Q) (a : Q) :
  fold_left Qplus l a == a + fold_right Qplus 0 l.
Proof.
  revert a. induction l as [ | x l IH ]; intros a; cbn [fold_left fold_right].
  - ring.
  - rewrite IH. ring.
Qed.

Lemma py_sum_total (l : list Q) : py_sum l == fold_right Qplus 0 l.
Proof. unfold py_sum. rewrite fold_sum. ring. Qed.

Lemma of_nat_succ (n : nat) : of_nat (S n) == 1 + of_nat n.
Proof.
  unfold of_nat. rewrite Nat2Z.inj_succ, <- Z.add_1_l, inject_Z_plus. reflexivity.
Qed.

Lemma of_nat_positive (n : nat) : n <> O -> 0 < of_nat n.
Proof. intros Hn. unfold of_nat, Qlt. cbn. lia. Qed.

Lemma total_above (l : list Q) (m : Q) :
  (forall t, In t l -> m <= t) -> m * of_nat (List.length l) <= fold_right Qplus 0 l.
Proof.
  induction l as [ | x l IH ]; intros Hall; cbn [List.length fold_right].
  - unfold of_nat. cbn. rewrite Qmult_0_r. apply Qle_refl.
  - rewrite of_nat_succ.
    setoid_replace (m * (1 + of_nat (List.length l)))
      with (m + m * of_nat (List.length l)) by ring.
    apply Qplus_le_compat; [ apply Hall; now left | ].
    apply IH. intros t Ht. apply Hall. now right.
Qed.

Lemma total_below (l : list Q) (m : Q) :
  (forall t, In t l -> t <= m) -> fold_right Qplus 0 l <= m * of_nat (List.length l).
Proof.
  induction l as [ | x l IH ]; intros Hall; cbn [List.length fold_right].
  - unfold of_nat. cbn. rewrite Qmult_0_r. apply Qle_refl.
  - rewrite of_nat_succ.
    setoid_replace (m * (1 + of_nat (List.length l)))
      with (m + m * of_nat (List.length l)) by ring.
    apply Qplus_le_compat; [ apply Hall; now left | ].
    apply IH. intros t Ht. apply Hall. now right.
Qed.

Lemma half_between (x y lo hi : Q) :
  lo <= x <= hi -> lo <= y <= hi -> lo <= (x + y) / 2 <= hi.
Proof.
  intros [Hx1 Hx2] [Hy1 Hy2]. split.
  - apply Qle_shift_div_l; [ reflexivity | ].
    setoid_replace (lo * 2) with (lo + lo) by ring. now apply Qplus_le_compat.
  - apply Qle_shift_div_r; [ reflexivity | ].
    setoid_replace (hi * 2) with (hi + hi) by ring. now apply Qplus_le_compat.
Qed.

Lemma median_is_between (ts : list Q) (lo hi d : Q) :
  (forall t, In t ts -> lo <= t <= hi) ->
  median ts = Ok d -> lo <= d <= hi.
Proof.
  intros Hall. unfold median.
  assert (Hs : forall k, (k < List.length (sorted ts))%nat ->
                         lo <= nth k (sorted ts) 0 <= hi).
  { intros k Hk. apply Hall.
    apply (Permutation_in _ (Permutation_sym (sorted_permutation ts))).
    now apply nth_In. }
  set (n := List.length (sorted ts)) in *.
  destruct (n =? 0)%nat eqn:E0; [ discriminate | ].
  apply Nat.eqb_neq in E0.
  assert (Hhalf : (n / 2 < n)%nat) by (apply Nat.div_lt; lia).
  destruct (n mod 2 =? 1)%nat eqn:E1.
  - intros [= <-]. exact (Hs _ Hhalf).
  - intros [= <-]. apply half_between; [ | exact (Hs _ Hhalf) ].
    apply (Hs (n / 2 - 1)%nat). lia.
Qed.

(** X13.  The four statistics of a report are in order: the fastest
    response time is at most the mean and the median, and these are at
    most the slowest. *)
Theorem statistics_are_in_order (ts : list Q) :
  ts <> [] ->
  exists t_min t_max t_mean t_median,
    py_min ts = Ok t_min /\ py_max ts = Ok t_max
    /\ mean ts = Ok t_mean /\ median ts = Ok t_median
    /\ t_min <= t_mean <= t_max
    /\ t_min <= t_median <= t_max.
Proof.
  intros Hne.
  destruct (statistics_defined ts Hne) as (a & b & c & d & Ha & Hb & Hc & Hd).
  exists a, b, c, d. do 4 (split; [ assumption | ]).
  destruct (py_min_least ts a Ha) as (_ & Hlow).
  destruct (py_max_greatest ts b Hb) as (_ & Hhigh).
  split.
  - destruct ts as [ | x rest ]; [ congruence | ].
    cbn [mean] in Hc. injection Hc as <-.
    assert (Hpos : 0 < of_nat (List.length (x :: rest))) by (apply of_nat_positive; discriminate).
    rewrite py_sum_total. split.
    + apply Qle_shift_div_l; [ exact Hpos | exact (total_above (x :: rest) a Hlow) ].
    + apply Qle_shift_div_r; [ exact Hpos | exact (total_below (x :: rest) b Hhigh) ].
  - apply (median_is_between ts a b d); [ | exact Hd ].
    intros t Ht. split; [ now apply Hlow | now apply Hhigh ].
Qed.

Lemma statistics_are_in_order_witness :
  five_latencies <> []
  /\ exists t_min t_max t_mean t_median,
       py_min five_latencies = Ok t_min /\ py_max five_latencies = Ok t_max
       /\ mean five_latencies = Ok t_mean /\ median five_latencies = Ok t_median
       /\ t_min <= t_mean <= t_max
       /\ t_min <= t_median <= t_max.
Proof.
  split; [ discriminate | ].
  exact (statistics_are_in_order five_latencies ltac:(discriminate)).
Defined.

Lemma filter_permutation {A : Type} (f : A -> bool) (l l' : list A) :
  Permutation l l' -> Permutation (filter f l) (filter f l').
Proof.
  induction 1 as [ | x l l' _ IH | x y l | l l' l'' _ IH1 _ IH2 ]; cbn [filter].
  - constructor.
  - destruct (f x); [ now apply perm_skip | exact IH ].
  - destruct (f x), (f y); try reflexivity. apply perm_swap.
  - now apply Permutation_trans with (l' := filter f l').
Qed.

Lemma pointwise_refl (l : list Q) : Forall2 Qeq l l.
Proof. induction l; constructor; [ reflexivity | assumption ]. Qed.

Lemma pointwise_trans (l1 l2 l3 : list Q) :
  Forall2 Qeq l1 l2 -> Forall2 Qeq l2 l3 -> Forall2 Qeq l1 l3.
Proof.
  intros H. revert l3. induction H as [ | x y l1 l2 Hxy _ IH ]; intros l3 H23.
  - exact H23.
  - inversion H23 as [ | y' z l2' l3' Hyz H23' ]; subst.
    constructor; [ now rewrite Hxy | now apply IH ].
Qed.

Lemma leb_compatible (x y z w : Q) : x == y -> z == w -> leb x z = leb y w.
Proof. intros Hxy Hzw. unfold leb. now rewrite Hxy, Hzw. Qed.

Lemma insert_pointwise (x y : Q) (s1 s2 : list Q) :
  x == y -> Forall2 Qeq s1 s2 -> Forall2 Qeq (insert x s1) (insert y s2).
Proof.
  intros Hxy H. induction H as [ | z w s1 s2 Hzw Hs IH ]; cbn [insert].
  - repeat constructor. exact Hxy.
  - rewrite (leb_compatible x y z w Hxy Hzw).
    destruct (leb y w); repeat (constructor; try assumption).
Qed.

Lemma leb_total (x y : Q) : leb x y = false -> leb y x = true.
Proof. intros H. apply Qle_bool_iff. now apply leb_false_le. Qed.

Lemma leb_both (x y : Q) : leb x y = true -> leb y x = true -> x == y.
Proof. unfold leb. rewrite !Qle_bool_iff. apply Qle_antisym. Qed.

Lemma leb_chain (x y z : Q) : leb x y = true -> leb y z = true -> leb x z = true.
Proof. unfold leb. rewrite !Qle_bool_iff. apply Qle_trans. Qed.

(** Two insertions give the same values in the same places, whichever
    comes first. *)
Lemma insert_insert (x y : Q) (s : list Q) :
  Forall2 Qeq (insert y (insert x s)) (insert x (insert y s)).
Proof.
  induction s as [ | z s IH ]; cbn [insert].
  - destruct (leb y x) eqn:Eyx, (leb x y) eqn:Exy; cbn [insert];
      rewrite ?Eyx, ?Exy.
    + pose proof (leb_both x y Exy Eyx) as H.
      repeat constructor; [ now symmetry | exact H ].
    + apply pointwise_refl.
    + apply pointwise_refl.
    + apply leb_total in Eyx. congruence.
  - destruct (leb x z) eqn:Exz, (leb y z) eqn:Eyz; cbn [insert].
    + destruct (leb y x) eqn:Eyx, (leb x y) eqn:Exy; cbn [insert];
        rewrite ?Exz, ?Eyz.
      * pose proof (leb_both x y Exy Eyx) as H.
        constructor; [ now symmetry | constructor; [ exact H | apply pointwise_refl ] ].
      * apply pointwise_refl.
      * apply pointwise_refl.
      * apply leb_total in Eyx. congruence.
    + assert (Eyx : leb y x = false).
      { destruct (leb y x) eqn:E; [ | reflexivity ].
        rewrite (leb_chain y x z E Exz) in Eyz. discriminate. }
      rewrite Eyx, Exz. cbn [insert]. rewrite Eyz. apply pointwise_refl.
    + assert (Exy : leb x y = false).
      { destruct (leb x y) eqn:E; [ | reflexivity ].
        rewrite (leb_chain x y z E Eyz) in Exz. discriminate. }
      rewrite Exy, Eyz. cbn [insert]. rewrite Exz. apply pointwise_refl.
    + rewrite Exz, Eyz. constructor; [ reflexivity | exact IH ].
Qed.

(** Sorting two arrangements of the same values gives the same values in
    the same places. *)
Lemma sorted_pointwise (l l' : list Q) :
  Permutation l l' -> Forall2 Qeq (sorted l) (sorted l').
Proof.
  induction 1 as [ | x l l' _ IH | x y l | l l' l'' _ IH1 _ IH2 ]; cbn [sorted].
  - constructor.
  - apply insert_pointwise; [ reflexivity | exact IH ].
  - apply insert_insert.
  - now apply pointwise_trans with (l2 := sorted l').
Qed.

Lemma nth_pointwise (l l' : list Q) (k : nat) :
  Forall2 Qeq l l' -> nth k l 0 == nth k l' 0.
Proof.
  intros H. revert k. induction H as [ | x y l l' Hxy _ IH ]; intros k.
  - destruct k; reflexivity.
  - destruct k as [ | k ]; cbn [nth]; [ exact Hxy | apply IH ].
Qed.

Lemma total_permutation (l l' : list Q) :
  Permutation l l' -> fold_right Qplus 0 l == fold_right Qplus 0 l'.
Proof.
  induction 1 as [ | x l l' _ IH | x y l | l l' l'' _ IH1 _ IH2 ]; cbn [fold_right].
  - reflexivity.
  - now rewrite IH.
  - ring.
  - now rewrite IH1.
Qed.

(** The statistics of two arrangements of the same response times. *)
Lemma statistics_permutation (ts ts' : list Q) (a b c d a' b' c' d' : Q) :
  Permutation ts ts' ->
  py_min ts = Ok a -> py_max ts = Ok b -> mean ts = Ok c -> median ts = Ok d ->
  py_min ts' = Ok a' -> py_max ts' = Ok b' -> mean ts' = Ok c' -> median ts' = Ok d' ->
  a == a' /\ b == b' /\ c == c' /\ d == d'.
Proof.
  intros Hperm Ha Hb Hc Hd Ha' Hb' Hc' Hd'.
  pose proof (Permutation_length Hperm) as Hlen.
  destruct (py_min_least ts a Ha) as (Hin & Hlow).
  destruct (py_min_least ts' a' Ha') as (Hin' & Hlow').
  destruct (py_max_greatest ts b Hb) as (Hinb & Hhigh).
  destruct (py_max_greatest ts' b' Hb') as (Hinb' & Hhigh').
  split; [ | split; [ | split ] ].
  - apply Qle_antisym.
    + apply Hlow. now apply (Permutation_in _ (Permutation_sym Hperm)).
    + apply Hlow'. now apply (Permutation_in _ Hperm).
  - apply Qle_antisym.
    + apply Hhigh'. now apply (Permutation_in _ Hperm).
    + apply Hhigh. now apply (Permutation_in _ (Permutation_sym Hperm)).
  - destruct ts as [ | x rest ]; [ discriminate | ].
    destruct ts' as [ | x' rest' ]; [ discriminate | ].
    cbn [mean] in Hc, Hc'. injection Hc as <-. injection Hc' as <-.
    cbn [List.length] in Hlen. rewrite Hlen.
    rewrite !py_sum_total, (total_permutation _ _ Hperm). reflexivity.
  - pose proof (sorted_pointwise ts ts' Hperm) as Hs.
    unfold median in Hd, Hd'. rewrite !sorted_length in Hd, Hd'. rewrite <- Hlen in Hd'.
    destruct (List.length ts =? 0)%nat; [ discriminate | ].
    destruct (List.length ts mod 2 =? 1)%nat.
    + injection Hd as <-. injection Hd' as <-. now apply nth_pointwise.
    + injection Hd as <-. injection Hd' as <-.
      rewrite (nth_pointwise _ _ (List.length ts / 2 - 1) Hs).
      rewrite (nth_pointwise _ _ (List.length ts / 2) Hs). reflexivity.
Qed.

Lemma classes_permutation (ts ts' : list Q) :
  Permutation ts ts' ->
  fast ts = fast ts' /\ medium ts = medium ts' /\ slow ts = slow ts'.
Proof.
  intros Hperm. unfold fast, medium, slow.
  repeat split; apply Permutation_length, filter_permutation, Hperm.
Qed.

Lemma same_statistics_lines (ts ts' : list Q) (a b c d a' b' c' d' : Q) :
  Permutation ts ts' ->
  a == a' -> b == b' -> c == c' -> d == d' ->
  same_lines (statistics_lines ts a b c d) (statistics_lines ts' a' b' c' d') = true.
Proof.
  intros Hperm Ha Hb Hc Hd.
  destruct (classes_permutation ts ts' Hperm) as (H1 & H2 & H3).
  unfold statistics_lines.
  rewrite <- H1, <- H2, <- H3, <- (Permutation_length Hperm).
  cbn [same_lines same_line same_piece].
  rewrite !String.eqb_refl.
  rewrite (Qeq_eq_bool _ _ Ha), (Qeq_eq_bool _ _ Hb), (Qeq_eq_bool _ _ Hc),
    (Qeq_eq_bool _ _ Hd).
  rewrite !(Qeq_eq_bool _ _ (Qeq_refl _)).
  reflexivity.
Qed.

(** X14.  The summary does not depend on the order in which the probes
    complete: for two arrangements of the same results, [generate_report]
    prints the same counts and a statistics block with the same text and
    the same numbers. *)
Theorem summary_is_independent_of_order (self : SitemapTester) (env : Env) (s s' : State) :
  Permutation (results s) (results s') ->
  results s <> [] ->
  forallb well_formed (results s) = true ->
  exists rest rest',
    console (fst (generate_report self env s))
    = (console s ++ summary_head (results s) ++ statistics_block (results s) ++ rest)%list
    /\ console (fst (generate_report self env s'))
       = (console s' ++ summary_head (results s') ++ statistics_block (results s')
          ++ rest')%list
    /\ summary_head (results s) = summary_head (results s')
    /\ same_lines (statistics_block (results s)) (statistics_block (results s')) = true.
Proof.
  intros Hperm Hne Hwf.
  assert (Hne' : results s' <> []).
  { intros E. rewrite E in Hperm. apply Permutation_sym, Permutation_nil in Hperm.
    contradiction. }
  assert (Hwf' : forallb well_formed (results s') = true).
  { apply forallb_forall. intros r Hr.
    apply (Permutation_in _ (Permutation_sym Hperm)) in Hr.
    now apply (proj1 (forallb_forall _ _) Hwf). }
  rewrite (generate_report_runs self env s Hne Hwf).
  rewrite (generate_report_runs self env s' Hne' Hwf').
  cbn [fst set_files add_console console]. unfold report_console.
  eexists. eexists. split; [ reflexivity | split; [ reflexivity | ] ].
  pose proof (filter_permutation success _ _ Hperm) as Hs.
  pose proof (filter_permutation (fun r => negb (success r)) _ _ Hperm) as Hf.
  split.
  - unfold summary_head, len.
    now rewrite (Permutation_length Hperm), (Permutation_length Hs), (Permutation_length Hf).
  - unfold statistics_block.
    assert (Hts : Permutation (successful_latencies (results s))
                    (successful_latencies (results s')))
      by now apply Permutation_map.
    destruct (successful_latencies (results s)) as [ | t ts ] eqn:E.
    + apply Permutation_nil in Hts. rewrite Hts. reflexivity.
    + destruct (successful_latencies (results s')) as [ | t' ts' ] eqn:E'.
      * apply Permutation_sym, Permutation_nil in Hts. discriminate.
      * cbn [is_empty].
        destruct (statistics_defined (t :: ts)) as (a & b & c & d & Ha & Hb & Hc & Hd);
          [ discriminate | ].
        destruct (statistics_defined (t' :: ts'))
          as (a' & b' & c' & d' & Ha' & Hb' & Hc' & Hd');
          [ discriminate | ].
        rewrite Ha, Hb, Hc, Hd, Ha', Hb', Hc', Hd'. cbn [value_of].
        destruct (statistics_permutation _ _ _ _ _ _ _ _ _ _ Hts Ha Hb Hc Hd Ha' Hb' Hc' Hd')
          as (H1 & H2 & H3 & H4).
        now apply same_statistics_lines.
Qed.

Lemma summary_is_independent_of_order_witness :
  Permutation (results (with_results five_successes))
    (results (with_results (rev five_successes)))
  /\ results (with_results five_successes) <> []
  /\ forallb well_formed (results (with_results five_successes)) = true
  /\ same_lines (statistics_block (results (with_results five_successes)))
       (statistics_block (results (with_results (rev five_successes)))) = true.
Proof.
  assert (H : Permutation (results (with_results five_successes))
                (results (with_results (rev five_successes))))
    by apply Permutation_rev.
  split; [ exact H | split; [ discriminate | split; [ reflexivity | ] ] ].
  destruct (summary_is_independent_of_order example_tester (example_env 200 "OK")
              (with_results five_successes) (with_results (rev five_successes))
              H ltac:(discriminate) eq_refl)
    as (rest & rest' & _ & _ & _ & Hsame).
  exact Hsame.
Defined.

End StatisticsFacts.
